(** * SCB MCP server: query resolution helpers and tool handlers

    A shallow embedding of the helpers and handlers of the server module
    (third document of [src/scripts/update-api-types.ts]):
    [validateLanguage], [normalizeSwedish], [fuzzyMatchRegion], and the
    handlers [handleSearchTables], [handleGetTableData],
    [handleFindRegionCode], [handleTestSelection] and [handlePreviewData].

    Conventions.
    - A JavaScript string is the list of its UTF-16 code units ([list N]).
    - A JavaScript object used as a dictionary is a [gmap] keyed by strings,
      which holds the object's own keys; [Object.entries] is [map_to_list],
      [Object.keys] its first projection, both up to the order of the keys.
    - [string | undefined] is an [option]; an absent argument is [None].
    - The API client ([./api-client.js]) is outside the module: a handler is
      a tree of client calls ([Prog]), every call answered by a value or by
      an exception, and [run] plays a handler against a client and logs the
      calls it issued. *)

From Stdlib Require Import QArith Ascii String.
From stdpp Require Import gmap strings list fin_maps.

Local Open Scope N_scope.

(** ** JavaScript strings *)

Abbreviation jsstring := (list N).

(** An ASCII literal of the source as code units. *)
Definition js (s : string) : jsstring :=
  (fun a => N_of_ascii a) <$> list_ascii_of_string s.

Module JsString.

(** [String.prototype.toLowerCase], one code unit at a time. The model is
    exact on Basic Latin and the Latin-1 Supplement: A-Z, and U+00C0 to
    U+00DE without the multiplication sign U+00D7, move up by 32. Code
    units from U+0100 on are kept as they are; that is exact for symbols
    without case, such as U+221A, U+2022 and U+2202 below, and leaves
    cased letters beyond Latin-1 outside the model. *)
Definition lowerUnit (c : N) : N :=
  if (65 <=? c) && (c <=? 90) then c + 32
  else if (192 <=? c) && (c <=? 222) && negb (c =? 215) then c + 32
  else c.

Definition toLowerCase (s : jsstring) : jsstring := lowerUnit <$> s.

(** White space and line terminators removed by [String.prototype.trim]. *)
Definition isWhiteSpace (c : N) : bool :=
  ((9 <=? c) && (c <=? 13)) || (c =? 32) || (c =? 160) || (c =? 5760)
  || ((8192 <=? c) && (c <=? 8202)) || (c =? 8232) || (c =? 8233)
  || (c =? 8239) || (c =? 8287) || (c =? 12288) || (c =? 65279).

Fixpoint trimStart (s : jsstring) : jsstring :=
  match s with
  | c :: t => if isWhiteSpace c then trimStart t else s
  | [] => []
  end.

Definition trimEnd (s : jsstring) : jsstring :=
  reverse (trimStart (reverse s)).

Definition trim (s : jsstring) : jsstring := trimEnd (trimStart s).

(** [s.startsWith(p)]. *)
Fixpoint startsWith (s p : jsstring) {struct p} : bool :=
  match p, s with
  | [], _ => true
  | a :: p', b :: s' => (a =? b) && startsWith s' p'
  | _ :: _, [] => false
  end.

(** [s.includes(sub)]: [sub] occurs in [s] as a contiguous run. *)
Fixpoint includes (s sub : jsstring) : bool :=
  startsWith s sub ||
  match s with
  | [] => false
  | _ :: t => includes t sub
  end.

(** [s.replace(/pat/g, rep)] for a literal, non-empty pattern: scan from
    the left, replace a match and resume after it ([skip] counts the
    units of the match still to be dropped). *)
Fixpoint replace_aux (pat rep : jsstring) (skip : nat) (s : jsstring)
  : jsstring :=
  match s with
  | [] => []
  | c :: t =>
      match skip with
      | S k => replace_aux pat rep k t
      | O =>
          if startsWith s pat
          then rep ++ replace_aux pat rep (pred (length pat)) t
          else c :: replace_aux pat rep 0 t
      end
  end.

Definition replace_g (pat rep s : jsstring) : jsstring :=
  replace_aux pat rep 0 s.

End JsString.

Import JsString.

(** ** Constants and helpers *)

Definition SUPPORTED_LANGUAGES : list jsstring := [js "sv"; js "en"].
Definition DEFAULT_LANGUAGE : jsstring := js "sv".
Definition MAX_PAGE_SIZE : Q := 100%Q.

(** The object returned by [validateLanguage]. *)
Record LangValidation := mkLangValidation {
  valid : bool;
  language : jsstring;
  warning : option jsstring
}.

Definition unsupportedLanguageWarning (language : jsstring) : jsstring :=
  js "Unsupported language '" ++ language
  ++ js "'. Only 'sv' (Swedish) and 'en' (English) are supported. Defaulting to '"
  ++ DEFAULT_LANGUAGE ++ js "'.".

(** [validateLanguage]: [!language] holds for [undefined] and for the
    empty string. *)
Definition validateLanguage (language : option jsstring) : LangValidation :=
  match language with
  | None | Some [] => mkLangValidation true DEFAULT_LANGUAGE None
  | Some lang =>
      let langLower := toLowerCase lang in
      if bool_decide (langLower ∈ SUPPORTED_LANGUAGES)
      then mkLangValidation true langLower None
      else mkLangValidation false DEFAULT_LANGUAGE
             (Some (unsupportedLanguageWarning lang))
  end.

(** The five patterns of [normalizeSwedish], as the source file spells
    them: each is the two code units U+221A followed by U+2022, U+00A7,
    U+2202, U+00A9 and U+00BA respectively. *)
Definition pat_a1 : jsstring := [8730; 8226].
Definition pat_a2 : jsstring := [8730; 167].
Definition pat_o : jsstring := [8730; 8706].
Definition pat_e : jsstring := [8730; 169].
Definition pat_u : jsstring := [8730; 186].

Definition normalizeSwedish (str : jsstring) : jsstring :=
  trim
    (replace_g pat_u (js "u")
      (replace_g pat_e (js "e")
        (replace_g pat_o (js "o")
          (replace_g pat_a2 (js "a")
            (replace_g pat_a1 (js "a")
              (toLowerCase str)))))).

Definition jsEq (a b : jsstring) : bool := bool_decide (a = b).

Definition fuzzyMatchRegion (query regionName regionCode : jsstring) : bool :=
  let normalizedQuery := normalizeSwedish query in
  let normalizedName := normalizeSwedish regionName in
  let normalizedCode := toLowerCase regionCode in
  if jsEq normalizedName normalizedQuery || jsEq normalizedCode normalizedQuery
  then true
  else if includes normalizedName normalizedQuery
          || includes normalizedQuery normalizedName
  then true
  else if includes normalizedCode normalizedQuery
  then true
  else false.

(** ** JSON values

    A handler answers with [JSON.stringify] of an object literal; the model
    keeps the object itself, its fields in the order of the literal. A field
    whose value is [undefined] is dropped by [JSON.stringify] and is absent
    here. *)

#[local] Set Warnings "-register-all".

Inductive json : Type :=
  | JNull
  | JBool (b : bool)
  | JNum (q : Q)
  | JStr (s : jsstring)
  | JArr (items : list json)
  | JObj (fields : list (jsstring * json)).

Fixpoint jget (k : jsstring) (fields : list (jsstring * json)) : option json :=
  match fields with
  | [] => None
  | (k', v) :: rest => if jsEq k' k then Some v else jget k rest
  end.

(** [{...fields, k: v}]: an existing key keeps its place and takes the new
    value, a new key is appended. *)
Fixpoint jset (k : jsstring) (v : json) (fields : list (jsstring * json))
  : list (jsstring * json) :=
  match fields with
  | [] => [(k, v)]
  | (k', v') :: rest =>
      if jsEq k' k then (k, v) :: rest else (k', v') :: jset k v rest
  end.

Definition field (k : jsstring) (j : json) : option json :=
  match j with
  | JObj fields => jget k fields
  | _ => None
  end.

Definition JNat (n : nat) : json := JNum (inject_Z (Z.of_nat n)).

(** [x || null] for a string [x]. *)
Definition orNull (x : option jsstring) : json :=
  match x with
  | Some (c :: s) => JStr (c :: s)
  | _ => JNull
  end.

(** A value is truthy unless it is [undefined] or the empty string. *)
Definition truthy (x : option jsstring) : bool :=
  match x with
  | Some (_ :: _) => true
  | _ => false
  end.

(** ** Selections and the upstream's data sets *)

Abbreviation Selection := (gmap jsstring (list jsstring)).

Definition jsonOfSelection (s : Selection) : json :=
  JObj ((fun kv => (kv.1, JArr (JStr <$> kv.2))) <$> map_to_list s).

(** [selection || {}]. *)
Definition selectionOrEmpty (s : option Selection) : json :=
  match s with
  | Some s => jsonOfSelection s
  | None => JObj []
  end.

(** The loop [for (const [k, v] of Object.entries(o)) target[k] = f(v)]
    run on an empty object literal [target], where [f(v)] is an array. The
    assignment creates the own key [k], except when [k] is [__proto__]:
    that assignment runs the setter inherited from [Object.prototype], which
    makes the array the prototype of [target] and creates no key. The model
    keeps the own keys of [target], which is what [Object.entries] and
    [JSON.stringify] read of it. *)
Definition assignEach {V W : Type} (f : V -> W) (o : gmap jsstring V)
  : gmap jsstring W :=
  foldl (fun target kv =>
           if jsEq kv.1 (js "__proto__") then target
           else <[kv.1 := f kv.2]> target)
        ∅ (map_to_list o).

Record Category := mkCategory {
  cat_index : gmap jsstring N;
  cat_label : option (gmap jsstring jsstring)
}.

Record Dimension := mkDimension {
  dim_label : jsstring;
  category : Category
}.

(** The JSON-stat2 data set returned for a table (metadata or data). *)
Record Dataset := mkDataset {
  ds_label : jsstring;
  dimension : option (gmap jsstring Dimension);
  ds_size : list N
}.

(** The object returned by [transformToStructuredData], as its fields;
    [sd_query] is [structuredData.query]. *)
Record StructuredData := mkStructuredData {
  sd_fields : list (jsstring * json)
}.

Definition sd_query (structuredData : StructuredData)
  : list (jsstring * json) :=
  match jget (js "query") (sd_fields structuredData) with
  | Some (JObj q) => q
  | _ => []
  end.

(** The object returned by [validateSelection]. *)
Record Validation := mkValidation {
  isValid : bool;
  translatedSelection : option Selection;
  errors : list jsstring;
  suggestions : list jsstring
}.

(** Arguments and results of [searchTables]. *)

Record SearchArgs := mkSearchArgs {
  arg_query : option jsstring;
  arg_category : option jsstring;
  arg_pageSize : option Q;
  arg_pageNumber : option Q;
  arg_language : option jsstring
}.

(** [{...args, language, pageSize}]. *)
Record SearchParams := mkSearchParams {
  p_args : SearchArgs;
  p_language : jsstring;
  p_pageSize : Q
}.

Record Table := mkTable {
  t_id : jsstring;
  t_label : jsstring;
  t_description : option jsstring;
  t_variableNames : option (list jsstring)
}.

Record Page := mkPage {
  pg_pageNumber : Q;
  pg_pageSize : Q;
  pg_totalPages : Q;
  pg_totalElements : Q
}.

Record SearchResult := mkSearchResult {
  tables : list Table;
  page : Page
}.

(** ** The API client and handlers as trees of client calls *)

Inductive Result (X : Type) : Type :=
  | Returned (x : X)
  | Thrown (message : jsstring).
Arguments Returned {X} x.
Arguments Thrown {X} message.

Inductive ApiCall : Type -> Type :=
  | searchTables (params : SearchParams) : ApiCall SearchResult
  | getTableMetadata (tableId lang : jsstring) : ApiCall Dataset
  | getTableData (tableId : jsstring) (selection : option Selection)
      (lang : jsstring) : ApiCall Dataset
  | transformToStructuredData (data : Dataset)
      (selection : option Selection) : ApiCall StructuredData
  | validateSelection (tableId : jsstring) (selection : Selection)
      (lang : jsstring) : ApiCall Validation.

Inductive Prog (A : Type) : Type :=
  | Ret (a : A)
  | Call {X : Type} (c : ApiCall X) (k : Result X -> Prog A).
Arguments Ret {A} a.
Arguments Call {A X} c k.

Definition Client : Type := forall X : Type, ApiCall X -> Result X.

(** The calls a handler issued, oldest first. *)
Definition Log : Type := list { X : Type & ApiCall X }.

Definition logged {X : Type} (c : ApiCall X) : { X : Type & ApiCall X } :=
  existT X c.

Fixpoint run {A : Type} (client : Client) (p : Prog A) : A * Log :=
  match p with
  | Ret a => (a, [])
  | Call c k =>
      let (a, log) := run client (k (client _ c)) in
      (a, logged c :: log)
  end.

(** ** Regions ([./regions.js]) *)

Inductive RegionType := country | county | municipality.

Definition regionTypeName (t : RegionType) : jsstring :=
  match t with
  | country => js "country"
  | county => js "county"
  | municipality => js "municipality"
  end.

Record Region := mkRegion {
  code : jsstring;
  name : jsstring;
  type : RegionType;
  countyCode : option jsstring
}.

Record RegionStats := mkRegionStats {
  total : nat;
  counties : nat;
  municipalities : nat
}.

(** The fields [type], [title] and [status] of an upstream error body. *)
Record ScbError := mkScbError {
  scb_type : option jsstring;
  scb_title : option jsstring;
  scb_status : option Q
}.

Definition dq : jsstring := [34].

Definition nonEmpty {A : Type} (l : list A) : bool :=
  match l with
  | [] => false
  | _ :: _ => true
  end.

(** [results[0]]; every list indexed this way below is non-empty. *)
Definition first (results : list json) : json := hd JNull results.

(** [results[0].code]. *)
Definition codeOf (result : json) : json :=
  default JNull (field (js "code") result).

(** ** Preview clamp and effective selection *)

(** [v === '*' || v.startsWith('TOP(') || v.startsWith('BOTTOM(')]. *)
Definition isExpression (v : jsstring) : bool :=
  jsEq v (js "*") || startsWith v (js "TOP(") || startsWith v (js "BOTTOM(").

(** The body of the loop of [handlePreviewData] for one variable. *)
Definition previewValues (values : list jsstring) : list jsstring :=
  if existsb isExpression values
  then (fun v => if jsEq v (js "*") then js "TOP(3)" else v) <$> values
  else take 3 values.

(** [previewSelection] of [handlePreviewData]. *)
Definition previewSelection (selection : option Selection)
  : option Selection :=
  match selection with
  | Some sel => Some (assignEach previewValues sel)
  | None => None
  end.

(** [Object.keys(dimDef.category.index)]. *)
Definition codes (dimDef : Dimension) : list jsstring :=
  (map_to_list (cat_index (category dimDef))).*1.

(** [effectiveSelection] of [handleGetTableData] and [handlePreviewData]. *)
Definition effectiveSelection (data : Dataset) : Selection :=
  match dimension data with
  | Some dims => assignEach codes dims
  | None => ∅
  end.

(** ** Searching tables *)

(** [let pageSize = args.pageSize || 20; if (pageSize > MAX_PAGE_SIZE)
    pageSize = MAX_PAGE_SIZE]. A JSON number is a finite double, hence a
    rational; zero is falsy. *)
Definition cappedPageSize (pageSize : option Q) : Q :=
  let pageSize :=
    match pageSize with
    | Some n => if Qeq_bool n 0 then 20%Q else n
    | None => 20%Q
    end in
  if Qle_bool pageSize MAX_PAGE_SIZE then pageSize else MAX_PAGE_SIZE.

(** [l.slice(0, n)]: [n] is truncated towards zero, and a negative bound
    counts from the end of the list. *)
Definition sliceTo {A : Type} (l : list A) (n : Q) : list A :=
  let k := (Qnum n ÷ Zpos (Qden n))%Z in
  if (k <? 0)%Z then take (length l - Z.to_nat (- k)) l
  else take (Z.to_nat k) l.

Definition categoryKeywords : list (jsstring * list jsstring) :=
  [
    (js "population",
     [js "population"; js "befolkning"; js "inv" ++ [8730; 8226] ++ js
      "nare"; js "folk"; js "demographic"; js "demografi"; js "f" ++
      [8730; 8706] ++ js "delse"; js "birth"; js "d" ++ [8730; 8706] ++
      js "d"; js "death"; js "migration"; js "flyttning"; [8730; 8226]
      ++ js "lder"; js "age"; js "k" ++ [8730; 8706] ++ js "n"; js
      "sex"; js "gender"]);
    (js "labour",
     [js "labour"; js "labor"; js "employment"; js "arbete"; js
      "arbets"; js "syssels" ++ [8730; 167] ++ js "ttning"; js
      "sysselsatt"; js "arbetsl" ++ [8730; 8706] ++ js "s"; js
      "unemployment"; js "yrke"; js "occupation"; js "l" ++ [8730; 8706]
      ++ js "n"; js "wage"; js "salary"]);
    (js "economy",
     [js "gdp"; js "bnp"; js "income"; js "inkomst"; js "ekonomi"; js
      "economy"; js "economic"; js "finans"; js "finance"; js "skatt";
      js "tax"; js "pris"; js "price"; js "inflation"; js "handel"; js
      "trade"; js "export"; js "import"; js "f" ++ [8730; 8706] ++ js
      "retag"; js "business"; js "n" ++ [8730; 167] ++ js "rings"]);
    (js "housing",
     [js "housing"; js "bostad"; js "boende"; js "dwelling"; js "l" ++
      [8730; 167] ++ js "genhet"; js "apartment"; js "hus"; js "house";
      js "hyra"; js "rent"; js "fastighet"; js "property"; js
      "byggnation"; js "construction"]);
    (js "environment",
     [js "milj" ++ [8730; 8706]; js "environment"; js "utsl" ++ [8730;
      167] ++ js "pp"; js "emission"; js "klimat"; js "climate"; js
      "energi"; js "energy"; js "avfall"; js "waste"; js "vatten"; js
      "water"; js "luft"; js "air"]);
    (js "education",
     [js "utbildning"; js "education"; js "skola"; js "school"; js
      "student"; js "elev"; js "universitet"; js "university"; js "h" ++
      [8730; 8706] ++ js "gskola"; js "examen"; js "degree"]);
    (js "health",
     [js "h" ++ [8730; 167] ++ js "lsa"; js "health"; js "sjukv" ++
      [8730; 8226] ++ js "rd"; js "healthcare"; js "sjukdom"; js
      "disease"; js "v" ++ [8730; 8226] ++ js "rd"; js "care"; js "d" ++
      [8730; 8706] ++ js "dsorsak"; js "cause of death"])
  ].

Definition validCategories : list jsstring := categoryKeywords.*1.

(** [[table.label, table.description || '', ...(table.variableNames || [])]
    .join(' ').toLowerCase()]. *)
Definition joinWith (sep : jsstring) (parts : list jsstring) : jsstring :=
  match parts with
  | [] => []
  | s :: rest => s ++ concat ((fun x => sep ++ x) <$> rest)
  end.

Definition searchText (table : Table) : jsstring :=
  toLowerCase
    (joinWith (js " ")
       ([t_label table; default [] (t_description table)]
        ++ default [] (t_variableNames table))).

Definition tableJson (table : Table) : json :=
  JObj [(js "id", JStr (t_id table));
        (js "title", JStr (t_label table));
        (js "description", orNull (t_description table));
        (js "variables", JArr (JStr <$> default [] (t_variableNames table)))].

(** [handleSearchTables]. The handler has no [try]: an exception of the
    client leaves it. Of each table the answer keeps [id], [title],
    [description] and [variables]. *)
Definition handleSearchTables (args : SearchArgs) : Prog (Result json) :=
  let langValidation := validateLanguage (arg_language args) in
  let lang := language langValidation in
  let pageSize := cappedPageSize (arg_pageSize args) in
  Call (searchTables (mkSearchParams args lang pageSize)) (fun r =>
    match r with
    | Thrown message => Ret (Thrown message)
    | Returned result =>
        let categoryLower := toLowerCase (default [] (arg_category args)) in
        if truthy (arg_category args)
           && negb (bool_decide (categoryLower ∈ validCategories))
        then
          Ret (Returned (JObj [(js "error", JObj
            [(js "type", JStr (js "invalid_category"));
             (js "message", JStr (js "Invalid category " ++ dq
                ++ default [] (arg_category args) ++ dq));
             (js "details", JObj
                [(js "provided", orNull (arg_category args));
                 (js "valid_categories", JArr (JStr <$> validCategories))])])]))
        else
          let filteredTables :=
            if truthy (arg_category args)
            then
              let keywords :=
                default [] (snd <$> List.find
                  (fun e => jsEq (fst e) categoryLower) categoryKeywords) in
              List.filter (fun table =>
                existsb (fun keyword => includes (searchText table) keyword)
                  keywords) (tables result)
            else tables result in
          let displayTables := sliceTo filteredTables pageSize in
          Ret (Returned (JObj
            [(js "query", JObj
                [(js "search_term", orNull (arg_query args));
                 (js "category_filter", orNull (arg_category args));
                 (js "page_size", JNum pageSize);
                 (js "page_number", JNum (pg_pageNumber (page result)));
                 (js "language_used", JStr lang);
                 (js "language_warning", orNull (warning langValidation))]);
             (js "tables", JArr (tableJson <$> displayTables));
             (js "pagination", JObj
                [(js "current_page", JNum (pg_pageNumber (page result)));
                 (js "total_pages", JNum (pg_totalPages (page result)));
                 (js "total_results", JNum (pg_totalElements (page result)));
                 (js "page_size", JNum (pg_pageSize (page result)))]);
             (js "metadata", JObj
                [(js "total_filtered", JNat (length filteredTables));
                 (js "total_unfiltered", JNat (length (tables result)));
                 (js "has_category_filter",
                  JBool (truthy (arg_category args)))])]))
    end).

(** ** The summary text of a preview

    [handlePreviewData] builds a summary text from the structured data
    inside its [try] block, before it answers. The text is no part of the
    answer, but an exception raised while it is built is caught and
    answered as [preview_failed]. For structured data made of JSON values
    the definitions below decide whether building the text completes. *)

(** Whether the conversion of a value to a string completes, as in a
    template literal and in [Array.prototype.join]. An array converts its
    elements; an object is converted by the [toString] it inherits, unless
    an own field of that name, which is no function, hides it: then the
    conversion raises a [TypeError]. *)
Fixpoint stringifies (v : json) : bool :=
  match v with
  | JArr items => forallb stringifies items
  | JObj fields => negb (bool_decide (is_Some (jget (js "toString") fields)))
  | _ => true
  end.

(** Whether [v.toLocaleString()] completes. It raises a [TypeError] on
    [null]; an array calls the method of each element other than [null];
    an object inherits a method that calls its [toString], unless own
    fields of these names hide the functions. *)
Fixpoint localizes (v : json) : bool :=
  match v with
  | JNull => false
  | JArr items =>
      forallb (fun e => match e with JNull => true | _ => localizes e end)
              items
  | JObj fields =>
      negb (bool_decide (is_Some (jget (js "toLocaleString") fields)))
      && negb (bool_decide (is_Some (jget (js "toString") fields)))
  | _ => true
  end.

(** Truthiness of [x.k], where [None] is [undefined]. *)
Definition truthyValue (v : option json) : bool :=
  match v with
  | None | Some JNull => false
  | Some (JBool b) => b
  | Some (JNum q) => negb (Qeq_bool q 0)
  | Some (JStr s) => nonEmpty s
  | Some (JArr _) | Some (JObj _) => true
  end.

(** The callback of [structuredData.data.slice(0, 5).map(record => ...)]:
    [record.value] raises a [TypeError] on [null]; a truthy [record.value]
    is converted to a string, and so is the value of every entry of
    [Object.entries(record)] whose key is not [value] (the entries of an
    array are its elements, those of a string its characters, and a
    number or a boolean has none). *)
Definition recordEvaluates (record : json) : bool :=
  match record with
  | JNull => false
  | _ =>
      match field (js "value") record with
      | Some v => if truthyValue (Some v) then stringifies v else true
      | None => true
      end
      && match record with
         | JObj fields =>
             forallb (fun e => jsEq e.1 (js "value") || stringifies e.2)
                     fields
         | JArr items => forallb stringifies items
         | _ => true
         end
  end.

(** Whether the summary text is built without an exception: the template
    reads [structuredData.metadata.table_name],
    [structuredData.summary.total_records.toLocaleString()] and
    [structuredData.data.slice(0, 5).map(...)]. Reading a property of
    [undefined] or [null], and calling what is no function ([slice] or
    [map] of a value that is no array), raise a [TypeError]. *)
Definition summaryEvaluates (structuredData : StructuredData) : bool :=
  match jget (js "metadata") (sd_fields structuredData) with
  | None | Some JNull => false
  | Some metadata =>
      match field (js "table_name") metadata with
      | Some v => stringifies v
      | None => true
      end
  end
  && match jget (js "summary") (sd_fields structuredData) with
     | None | Some JNull => false
     | Some summary =>
         match field (js "total_records") summary with
         | Some t => localizes t
         | None => false
         end
     end
  && match jget (js "data") (sd_fields structuredData) with
     | Some (JArr items) => forallb recordEvaluates (take 5 items)
     | _ => false
     end.

(** ** Fetching data *)

Section DataHandlers.

(** The [catch] blocks of [handleGetTableData] read an upstream error
    body out of the exception's message with a regular expression and
    [JSON.parse]; [scbErrorOf] stands for that reading. [templateError]
    is the message of the exception raised while the summary text of a
    preview is built, for structured data on which it is raised. *)
Variable scbErrorOf : jsstring -> option ScbError.
Variable templateError : StructuredData -> jsstring.

Definition dataFetchFailed (tableId : jsstring)
    (selection : option Selection) (langValidation : LangValidation)
    (errorMessage : jsstring) : json :=
  let scbError := scbErrorOf errorMessage in
  JObj [(js "error", JObj
    [(js "type", JStr (default (js "data_fetch_failed")
        (scbError ≫= fun e =>
           if truthy (scb_type e) then scb_type e else None)));
     (js "message", JStr (default errorMessage
        (scbError ≫= fun e =>
           if truthy (scb_title e) then scb_title e else None)));
     (js "http_status", default JNull
        (scbError ≫= fun e =>
           match scb_status e with
           | Some q => if Qeq_bool q 0 then None else Some (JNum q)
           | None => None
           end));
     (js "table_id", JStr tableId);
     (js "selection", match selection with
                      | Some s => jsonOfSelection s
                      | None => JNull
                      end);
     (js "language_used", JStr (language langValidation));
     (js "language_warning", orNull (warning langValidation))])].

(** [{...structuredData.query, selection: selection || {},
    effective_selection, language_used, language_warning}]. *)
Definition queryWith (structuredData : StructuredData)
    (selection : option Selection) (data : Dataset)
    (langValidation : LangValidation) : json :=
  JObj
    (jset (js "language_warning") (orNull (warning langValidation))
      (jset (js "language_used") (JStr (language langValidation))
        (jset (js "effective_selection")
           (jsonOfSelection (effectiveSelection data))
          (jset (js "selection") (selectionOrEmpty selection)
            (sd_query structuredData))))).

Definition handleGetTableData (tableId : jsstring)
    (selection : option Selection) (lang : option jsstring) : Prog json :=
  let langValidation := validateLanguage lang in
  Call (getTableData tableId selection (language langValidation)) (fun r =>
    match r with
    | Thrown errorMessage =>
        Ret (dataFetchFailed tableId selection langValidation errorMessage)
    | Returned data =>
        Call (transformToStructuredData data selection) (fun r' =>
          match r' with
          | Thrown errorMessage =>
              Ret (dataFetchFailed tableId selection langValidation
                     errorMessage)
          | Returned structuredData =>
              Ret (JObj
                (jset (js "query")
                   (queryWith structuredData selection data langValidation)
                   (sd_fields structuredData)))
          end)
    end).

(** [handlePreviewData]; the answer's [preview_info] keeps [is_preview],
    [original_selection] and [preview_selection]. The summary text is
    built after the two client calls and before the answer: when that
    raises an exception the answer is [preview_failed]. *)
Definition handlePreviewData (tableId : jsstring)
    (selection : option Selection) (lang : option jsstring) : Prog json :=
  let langValidation := validateLanguage lang in
  let previewFailed (errorMessage : jsstring) : json :=
    JObj [(js "error", JObj
      [(js "type", JStr (js "preview_failed"));
       (js "message", JStr errorMessage);
       (js "table_id", JStr tableId);
       (js "language_used", JStr (language langValidation));
       (js "language_warning", orNull (warning langValidation))])] in
  let previewSel := previewSelection selection in
  Call (getTableData tableId previewSel (language langValidation)) (fun r =>
    match r with
    | Thrown errorMessage => Ret (previewFailed errorMessage)
    | Returned data =>
        Call (transformToStructuredData data previewSel) (fun r' =>
          match r' with
          | Thrown errorMessage => Ret (previewFailed errorMessage)
          | Returned structuredData =>
              if summaryEvaluates structuredData then
                Ret (JObj
                  (jset (js "preview_info")
                     (JObj
                        ([(js "is_preview", JBool true)]
                         ++ match selection with
                            | Some s =>
                                [(js "original_selection",
                                  jsonOfSelection s)]
                            | None => []
                            end
                         ++ match previewSel with
                            | Some s =>
                                [(js "preview_selection",
                                  jsonOfSelection s)]
                            | None => []
                            end))
                     (jset (js "query")
                        (queryWith structuredData selection data
                           langValidation)
                        (sd_fields structuredData))))
              else Ret (previewFailed (templateError structuredData))
          end)
    end).

End DataHandlers.

(** ** Region codes and selection tests *)

Section RegionHandlers.

(** What the module imports from [./regions.js]. *)
Variable ALL_REGIONS : list Region.
Variable REGION_STATS : RegionStats.
Variable searchRegions : jsstring -> list Region.
Variable normalizeForSearch : jsstring -> jsstring.

Definition databaseInfo : json :=
  JObj [(js "total_regions", JNat (total REGION_STATS));
        (js "counties", JNat (counties REGION_STATS));
        (js "municipalities", JNat (municipalities REGION_STATS))].

(** [county: r.countyCode ? ALL_REGIONS.find(c => c.code ===
    r.countyCode)?.name : null]. *)
Definition countyField (r : Region) : list (jsstring * json) :=
  if truthy (countyCode r)
  then match List.find
               (fun c => jsEq (code c) (default [] (countyCode r)))
               ALL_REGIONS with
       | Some c => [(js "county", JStr (name c))]
       | None => []
       end
  else [(js "county", JNull)].

Definition localResult (withCounty : bool) (match_type : jsstring)
    (r : Region) : json :=
  JObj ([(js "code", JStr (code r));
         (js "name", JStr (name r));
         (js "type", JStr (regionTypeName (type r)))]
        ++ (if withCounty then countyField r else [])
        ++ [(js "match_type", JStr match_type)]).

Definition usageExample (results : list json) : json :=
  JObj [(js "Region", JArr [codeOf (first results)])].

(** The answer of [handleFindRegionCode] when nothing matched. *)
Definition noRegionsFound (query : jsstring)
    (langValidation : LangValidation) : json :=
  let sampleMunicipalities :=
    take 5 (List.filter
              (fun r => match type r with municipality => true | _ => false end)
              ALL_REGIONS) in
  JObj [(js "query", JStr query);
        (js "matches", JArr []);
        (js "error",
         JStr (js "No regions found matching " ++ dq ++ query ++ dq));
        (js "language_used", JStr (language langValidation));
        (js "language_warning", orNull (warning langValidation));
        (js "database_info", databaseInfo);
        (js "sample_regions",
         JArr ((fun r => JObj [(js "code", JStr (code r));
                               (js "name", JStr (name r))])
               <$> sampleMunicipalities))].

Definition sourceTable (tableId : jsstring) (metadata : Dataset) : json :=
  JObj [(js "id", JStr tableId); (js "name", JStr (ds_label metadata))].

(** [handleFindRegionCode]; the answers leave out their [note], [tips],
    [warning] and [suggestion] texts. *)
Definition handleFindRegionCode (query : jsstring)
    (tableId lang : option jsstring) : Prog json :=
  let langValidation := validateLanguage lang in
  let langUsed :=
    [(js "language_used", JStr (language langValidation));
     (js "language_warning", orNull (warning langValidation))] in
  let localMatches := searchRegions query in
  if nonEmpty localMatches && negb (truthy tableId)
  then
    let results := localResult true (js "exact") <$> take 10 localMatches in
    Ret (JObj ([(js "query", JStr query);
                (js "matches", JArr results);
                (js "match_type", JStr (js "exact_matches"));
                (js "total_matches", JNat (length localMatches));
                (js "primary_match", first results);
                (js "usage_example", usageExample results)]
               ++ langUsed
               ++ [(js "source", JStr (js "local_database"));
                   (js "database_info", databaseInfo)]))
  else if truthy tableId
  then
    let tableId := default [] tableId in
    Call (getTableMetadata tableId (language langValidation)) (fun r =>
      match r with
      | Thrown _ =>
          if nonEmpty localMatches
          then
            let results :=
              localResult false (js "fallback") <$> take 10 localMatches in
            Ret (JObj ([(js "query", JStr query);
                        (js "matches", JArr results);
                        (js "match_type", JStr (js "fallback_matches"));
                        (js "primary_match", first results);
                        (js "usage_example", usageExample results)]
                       ++ langUsed
                       ++ [(js "source", JStr (js "local_database"))]))
          else Ret (noRegionsFound query langValidation)
      | Returned metadata =>
          match dimension metadata ≫= fun dims => dims !! js "Region" with
          | None =>
              if nonEmpty localMatches
              then
                let results :=
                  localResult false (js "local_fallback")
                    <$> take 10 localMatches in
                Ret (JObj ([(js "query", JStr query);
                            (js "matches", JArr results);
                            (js "match_type", JStr (js "local_fallback"));
                            (js "primary_match", first results);
                            (js "usage_example", usageExample results)]
                           ++ langUsed
                           ++ [(js "source", JStr (js "local_database"))]))
              else
                Ret (JObj ([(js "query", JStr query);
                            (js "error",
                             JStr (js "Table " ++ tableId
                                   ++ js " does not have a Region dimension"))]
                           ++ langUsed))
          | Some regionDimension =>
              let regionLabels :=
                default ∅ (cat_label (category regionDimension)) in
              let normalizedQuery := normalizeForSearch query in
              let tableMatches :=
                List.filter (fun e =>
                  let normalizedLabel := normalizeForSearch (snd e) in
                  includes normalizedLabel normalizedQuery
                  || includes normalizedQuery normalizedLabel
                  || jsEq (fst e) query
                  || includes (fst e) query)
                  (map_to_list regionLabels) in
              if nonEmpty tableMatches
              then
                let results :=
                  (fun e => JObj [(js "code", JStr (fst e));
                                  (js "name", JStr (snd e));
                                  (js "match_type",
                                   JStr (js "table_specific"))])
                  <$> take 10 tableMatches in
                Ret (JObj ([(js "query", JStr query);
                            (js "matches", JArr results);
                            (js "match_type",
                             JStr (js "table_specific_matches"));
                            (js "total_matches",
                             JNat (length tableMatches));
                            (js "primary_match", first results);
                            (js "usage_example", usageExample results)]
                           ++ langUsed
                           ++ [(js "source_table",
                                sourceTable tableId metadata)]))
              else if nonEmpty localMatches
              then
                let results :=
                  localResult false (js "local_suggestion")
                    <$> take 5 localMatches in
                Ret (JObj ([(js "query", JStr query);
                            (js "matches", JArr results);
                            (js "match_type", JStr (js "local_suggestions"));
                            (js "primary_match", first results);
                            (js "usage_example", usageExample results)]
                           ++ langUsed
                           ++ [(js "source", JStr (js "local_database"));
                               (js "source_table",
                                sourceTable tableId metadata)]))
              else Ret (noRegionsFound query langValidation)
          end
      end)
  else Ret (noRegionsFound query langValidation).

End RegionHandlers.

(** [!selection || typeof selection !== 'object' ||
    Object.keys(selection).length === 0]. *)
Definition isEmptySelection (selection : option Selection) : bool :=
  match selection with
  | None => true
  | Some s => negb (nonEmpty (map_to_list s).*1)
  end.

(** The text under [effective_selection] for an empty selection. *)
Definition determinedByApi : jsstring :=
  js "Will be determined by API at request time".

(** [handleTestSelection]; the answers leave out their [message],
    [next_step], [tips] and fixed [suggestions] texts. *)
Definition handleTestSelection (tableId : jsstring)
    (selection : option Selection) (lang : option jsstring) : Prog json :=
  let langValidation := validateLanguage lang in
  let langUsed :=
    [(js "language_used", JStr (language langValidation));
     (js "language_warning", orNull (warning langValidation))] in
  if isEmptySelection selection
  then
    Call (getTableMetadata tableId (language langValidation)) (fun r =>
      match r with
      | Returned metadata =>
          let variables :=
            (fun e => JObj [(js "code", JStr (fst e));
                            (js "label", JStr (dim_label (snd e)));
                            (js "value_count",
                             JNat (length (codes (snd e))))])
            <$> map_to_list (default ∅ (dimension metadata)) in
          Ret (JObj ([(js "table_id", JStr tableId);
                      (js "is_valid", JBool true);
                      (js "selection_provided", JBool false)]
                     ++ langUsed
                     ++ [(js "effective_selection", JStr determinedByApi);
                         (js "available_variables", JArr variables)]))
      | Thrown message =>
          Ret (JObj [(js "error", JObj
            [(js "type", JStr (js "table_not_found"));
             (js "message",
              JStr (js "Could not validate table " ++ dq ++ tableId ++ dq
                    ++ js ": " ++ message))])])
      end)
  else
    let sel := default ∅ selection in
    Call (validateSelection tableId sel (language langValidation)) (fun r =>
      match r with
      | Returned validation =>
          Ret (JObj ([(js "table_id", JStr tableId);
                      (js "is_valid", JBool (isValid validation))]
                     ++ langUsed
                     ++ [(js "selection", jsonOfSelection sel);
                         (js "translated_selection",
                          match translatedSelection validation with
                          | Some s => jsonOfSelection s
                          | None => JNull
                          end);
                         (js "errors", JArr (JStr <$> errors validation));
                         (js "suggestions",
                          JArr (JStr <$> suggestions validation))]))
      | Thrown errorMessage =>
          Ret (JObj [(js "error", JObj
            ([(js "type", JStr (js "selection_validation_failed"));
              (js "message", JStr errorMessage);
              (js "table_id", JStr tableId)]
             ++ langUsed))])
      end).

(** ** Searching regions *)

Section RegionSearch.

(** What the module imports from [./regions.js]; [searchRegions] is taken
    to return (the [catch] of [handleSearchRegions] answers for an
    exception it would raise). *)
Variable ALL_REGIONS : list Region.
Variable REGION_STATS : RegionStats.
Variable searchRegions : jsstring -> list Region.

Definition codeAndName (r : Region) : json :=
  JObj [(js "code", JStr (code r)); (js "name", JStr (name r))].

Definition isOfType (t : RegionType) (r : Region) : bool :=
  match t, type r with
  | country, country | county, county | municipality, municipality => true
  | _, _ => false
  end.

(** One entry of [regions] in the answer of [handleSearchRegions]. *)
Definition regionEntry (r : Region) : json :=
  JObj ([(js "code", JStr (code r));
         (js "name", JStr (name r));
         (js "type", JStr (regionTypeName (type r)))]
        ++ countyField ALL_REGIONS r
        ++ [(js "usage_example", JObj [(js "Region", JArr [JStr (code r)])])]).

(** [handleSearchRegions]; the handler calls no client method. The answers
    leave out their [tips]. *)
Definition handleSearchRegions (query : jsstring) (lang : option jsstring)
  : json :=
  let langValidation := validateLanguage lang in
  let matches := searchRegions query in
  if negb (nonEmpty matches)
  then
    let sampleCounties :=
      take 5 (List.filter (isOfType county) ALL_REGIONS) in
    let sampleMunicipalities :=
      take 5 (List.filter (isOfType municipality) ALL_REGIONS) in
    JObj [(js "query", JStr query);
          (js "matches", JArr []);
          (js "message",
           JStr (js "No regions found matching " ++ dq ++ query ++ dq));
          (js "language_used", JStr (language langValidation));
          (js "language_warning", orNull (warning langValidation));
          (js "database_info", databaseInfo REGION_STATS);
          (js "sample_counties", JArr (codeAndName <$> sampleCounties));
          (js "sample_municipalities",
           JArr (codeAndName <$> sampleMunicipalities))]
  else
    JObj [(js "query", JStr query);
          (js "total_matches", JNat (length matches));
          (js "language_used", JStr (language langValidation));
          (js "language_warning", orNull (warning langValidation));
          (js "source", JStr (js "local_database"));
          (js "database_info", databaseInfo REGION_STATS);
          (js "regions", JArr (regionEntry <$> take 20 matches))].

End RegionSearch.

(** ** Table information and variables *)

(** The names every object inherits from [Object.prototype] as functions;
    [__proto__] is inherited too, as the prototype object itself. *)
Definition inheritedFunctionNames : list jsstring :=
  [js "constructor"; js "__defineGetter__"; js "__defineSetter__";
   js "hasOwnProperty"; js "__lookupGetter__"; js "__lookupSetter__";
   js "isPrototypeOf"; js "propertyIsEnumerable"; js "toString";
   js "valueOf"; js "toLocaleString"].

(** The field [label: labels[code] || code] of a value. An own, non-empty
    label is used; failing that, a code that names an inherited function
    reads that function, which [JSON.stringify] drops, the code
    [__proto__] reads the empty prototype object, and any other code
    stands for its own label. *)
Definition labelField (labels : gmap jsstring jsstring) (code : jsstring)
  : list (jsstring * json) :=
  match labels !! code with
  | Some (c :: l) => [(js "label", JStr (c :: l))]
  | Some [] => [(js "label", JStr code)]
  | None =>
      if bool_decide (code ∈ inheritedFunctionNames) then []
      else if jsEq code (js "__proto__") then [(js "label", JObj [])]
      else [(js "label", JStr code)]
  end.

Definition JN (n : N) : json := JNum (inject_Z (Z.of_N n)).

(** [`${variableName}`]. *)
Definition interpolated (x : option jsstring) : jsstring :=
  match x with
  | Some s => s
  | None => js "undefined"
  end.

(** One entry of [variables] in the answer of [handleGetTableVariables]. *)
Definition variableEntry (varCode : jsstring) (varDef : Dimension) : json :=
  let values := map_to_list (cat_index (category varDef)) in
  let labels := default ∅ (cat_label (category varDef)) in
  let allValues :=
    (fun e => JObj ([(js "code", JStr (fst e))]
                    ++ labelField labels (fst e)
                    ++ [(js "index", JN (snd e))])) <$> values in
  let firstCode :=
    match values with
    | (c :: s, _) :: _ => c :: s
    | _ => js "value"
    end in
  JObj [(js "variable_code", JStr varCode);
        (js "variable_name", JStr (dim_label varDef));
        (js "variable_type", JStr (toLowerCase varCode));
        (js "total_values", JNat (length values));
        (js "sample_values", JArr (take 10 allValues));
        (js "has_more", JBool (bool_decide (10 < length values)%nat));
        (js "usage_example", JObj
           [(js "single_value", JObj [(varCode, JArr [JStr firstCode])]);
            (js "multiple_values",
             JObj [(varCode, JArr [JStr (js "value1"); JStr (js "value2")])]);
            (js "all_values", JObj [(varCode, JArr [JStr (js "*")])]);
            (js "top_values", JObj [(varCode, JArr [JStr (js "TOP(5)")])])])].

(** The filter of [handleGetTableVariables] on one variable. *)
Definition variableMatches (variableName : jsstring)
    (e : jsstring * Dimension) : bool :=
  jsEq (toLowerCase (fst e)) (toLowerCase variableName)
  || includes (toLowerCase (dim_label (snd e))) (toLowerCase variableName).

(** [handleGetTableVariables]; the answer's [metadata] keeps
    [total_variables] and [filtered_variables], and the fixed [suggestion]
    texts are left out. *)
Definition handleGetTableVariables (tableId : jsstring)
    (lang variableName : option jsstring) : Prog json :=
  let langValidation := validateLanguage lang in
  Call (getTableMetadata tableId (language langValidation)) (fun r =>
    match r with
    | Thrown errorMessage =>
        Ret (JObj [(js "error", JObj
          [(js "type", JStr (js "table_variables_failed"));
           (js "message", JStr errorMessage);
           (js "table_id", JStr tableId);
           (js "language_used", JStr (language langValidation));
           (js "language_warning", orNull (warning langValidation))])])
    | Returned metadata =>
        match dimension metadata with
        | None =>
            Ret (JObj [(js "table_id", JStr tableId);
                       (js "error",
                        JStr (js "No variable information available for this table"))])
        | Some dims =>
            let variables := map_to_list dims in
            let filteredVariables :=
              if truthy variableName
              then List.filter (variableMatches (default [] variableName))
                     variables
              else variables in
            if negb (nonEmpty filteredVariables)
            then
              Ret (JObj [(js "table_id", JStr tableId);
                         (js "error",
                          JStr (js "Variable " ++ dq
                                ++ interpolated variableName ++ dq
                                ++ js " not found"));
                         (js "available_variables",
                          JArr ((fun e =>
                                   JObj [(js "code", JStr (fst e));
                                         (js "label",
                                          JStr (dim_label (snd e)))])
                                <$> variables))])
            else
              Ret (JObj [(js "table_id", JStr tableId);
                         (js "table_name", JStr (ds_label metadata));
                         (js "query", JObj
                            [(js "variable_filter", orNull variableName);
                             (js "language_used",
                              JStr (language langValidation));
                             (js "language_warning",
                              orNull (warning langValidation))]);
                         (js "variables",
                          JArr ((fun e => variableEntry (fst e) (snd e))
                                <$> filteredVariables));
                         (js "metadata", JObj
                            [(js "total_variables",
                              JNat (length variables));
                             (js "filtered_variables",
                              JNat (length filteredVariables))])])
        end
    end).

Section TableInfo.

(** [scbErrorOf] reads an upstream error body out of a message, as in
    [dataFetchFailed]; [entriesTypeError] is the message of the
    [TypeError] that [Object.entries] raises on [undefined]. *)
Variable scbErrorOf : jsstring -> option ScbError.
Variable entriesTypeError : jsstring.

Definition tableInfoFailed (tableId : jsstring)
    (langValidation : LangValidation) (errorMessage : jsstring) : json :=
  let scbError := scbErrorOf errorMessage in
  JObj [(js "error", JObj
    [(js "type", JStr (default (js "table_info_failed")
        (scbError ≫= fun e =>
           if truthy (scb_type e) then scb_type e else None)));
     (js "message", JStr (default errorMessage
        (scbError ≫= fun e =>
           if truthy (scb_title e) then scb_title e else None)));
     (js "http_status", default JNull
        (scbError ≫= fun e =>
           match scb_status e with
           | Some q => if Qeq_bool q 0 then None else Some (JNum q)
           | None => None
           end));
     (js "table_id", JStr tableId);
     (js "language_used", JStr (language langValidation));
     (js "language_warning", orNull (warning langValidation))])].

(** The numbers of [metadata.size] are doubles. Those that arise here are
    the non-negative integers among them, infinity and NaN. *)
Inductive Double :=
  | Finite (n : N)
  | Infinity
  | NotANumber.

(** The double nearest to a non-negative integer [x]: [x] itself below
    2^53; from there on [x] keeps its 53 leading binary digits, rounded
    to nearest with ties to the even neighbour, and is infinite when that
    reaches 2^1024. *)
Definition roundToDouble (x : N) : Double :=
  if x <? 2 ^ 53 then Finite x
  else
    let shift := N.log2 x - 52 in
    let q := N.shiftr x shift in
    let r := x mod 2 ^ shift in
    let half := 2 ^ (shift - 1) in
    let q' :=
      if (half <? r) || ((r =? half) && N.odd q) then q + 1 else q in
    let y := N.shiftl q' shift in
    if 2 ^ 1024 <=? y then Infinity else Finite y.

(** [a * b] on doubles: the exact product, rounded; infinity times zero
    is NaN. *)
Definition mulDouble (a b : Double) : Double :=
  match a, b with
  | Finite a, Finite b => roundToDouble (a * b)
  | Finite n, Infinity | Infinity, Finite n =>
      if n =? 0 then NotANumber else Infinity
  | Infinity, Infinity => Infinity
  | NotANumber, _ | _, NotANumber => NotANumber
  end.

(** [JSON.stringify] prints [null] for a number that is not finite. *)
Definition jsonOfDouble (d : Double) : json :=
  match d with
  | Finite n => JN n
  | Infinity | NotANumber => JNull
  end.

(** [metadata.size.reduce((a, b) => a * b, 1)], a product of doubles; a
    size the upstream sent as the integer [n] is the double nearest to
    [n]. *)
Definition totalCells (metadata : Dataset) : Double :=
  foldl (fun a b => mulDouble a (roundToDouble b)) (Finite 1)
        (ds_size metadata).

(** [handleGetTableInfo]; the answer leaves out [contacts], [notes] and,
    of [dataset_info], [source] and [updated]. *)
Definition handleGetTableInfo (tableId : jsstring) (lang : option jsstring)
  : Prog json :=
  let langValidation := validateLanguage lang in
  Call (getTableMetadata tableId (language langValidation)) (fun r =>
    match r with
    | Thrown errorMessage =>
        Ret (tableInfoFailed tableId langValidation errorMessage)
    | Returned metadata =>
        match dimension metadata with
        | None => Ret (tableInfoFailed tableId langValidation entriesTypeError)
        | Some dims =>
            let variables :=
              (fun e => JObj [(js "code", JStr (fst e));
                              (js "label", JStr (dim_label (snd e)));
                              (js "value_count",
                               JNat (length (codes (snd e))))])
              <$> map_to_list dims in
            Ret (JObj [(js "table_id", JStr tableId);
                       (js "table_name", JStr (ds_label metadata));
                       (js "language_used", JStr (language langValidation));
                       (js "language_warning",
                        orNull (warning langValidation));
                       (js "dataset_info", JObj
                          [(js "total_cells",
                            jsonOfDouble (totalCells metadata))]);
                       (js "variables", JArr variables)])
        end
    end).

End TableInfo.

(** * Properties *)

(** ** Strings *)

Section StringFacts.

Implicit Types s p sub : jsstring.

Lemma startsWith_spec s p :
  startsWith s p = true <-> exists post, s = p ++ post.
Proof.
  revert s. induction p as [|a p IH]; intros s; simpl.
  - split; [intros _; by exists s | done].
  - destruct s as [|b s].
    + split; [done | intros [post H]; discriminate].
    + rewrite andb_true_iff, IH, N.eqb_eq. split.
      * intros [-> [post ->]]. by exists post.
      * intros [post H]. injection H as -> ->. eauto.
Qed.

Lemma includes_spec s sub :
  includes s sub = true <-> exists pre post, s = pre ++ sub ++ post.
Proof.
  induction s as [|c s IH]; simpl; rewrite orb_true_iff, startsWith_spec.
  - split.
    + intros [[post H]|H]; [|done]. by exists [], post.
    + intros (pre & post & H). left. exists post.
      destruct pre; [done | discriminate].
  - rewrite IH. split.
    + intros [[post H]|(pre & post & ->)].
      * by exists [], post.
      * by exists (c :: pre), post.
    + intros (pre & post & H). destruct pre as [|c' pre].
      * left. by exists post.
      * right. injection H as -> ->. eauto.
Qed.

Lemma includes_empty s : includes s [] = true.
Proof. apply includes_spec. by exists [], s. Qed.

Lemma includes_refl s : includes s s = true.
Proof. apply includes_spec. exists [], []. by rewrite app_nil_r. Qed.

Lemma jsEq_true (a b : jsstring) : jsEq a b = true <-> a = b.
Proof. unfold jsEq. apply bool_decide_eq_true. Qed.

Lemma toLowerCase_length s : length (toLowerCase s) = length s.
Proof. apply length_fmap. Qed.

End StringFacts.

(** ** Language validation *)

Lemma supported_cases (c : jsstring) :
  c ∈ SUPPORTED_LANGUAGES <-> c = js "sv" \/ c = js "en".
Proof.
  unfold SUPPORTED_LANGUAGES. rewrite !elem_of_cons, elem_of_nil. tauto.
Qed.

Lemma toLowerCase_nil_not_supported : toLowerCase [] ∉ SUPPORTED_LANGUAGES.
Proof. rewrite supported_cases. intros [H|H]; discriminate. Qed.

(** The sentence of C5 on values other than the supported codes, read on
    one value. *)
Definition other_value_defaults_with_warning (lang : jsstring) : Prop :=
  lang ∉ SUPPORTED_LANGUAGES ->
  language (validateLanguage (Some lang)) = DEFAULT_LANGUAGE
  /\ is_Some (warning (validateLanguage (Some lang))).

(** C5, counterexample: neither the empty string nor [EN] is one of the
    two supported codes; the empty string is answered with the default
    code and no warning, [EN] with the code [en] and no warning. *)
Lemma validateLanguage_other_value_no_warning :
  ~ other_value_defaults_with_warning []
  /\ ~ other_value_defaults_with_warning (js "EN").
Proof.
  split; intros H; destruct H as [_ [w Hw]]; try discriminate;
    rewrite supported_cases; intros [E|E]; discriminate.
Qed.

(** An upper-case spelling is answered with its own code, not the default. *)
Example validateLanguage_EN :
  (js "EN" ∉ SUPPORTED_LANGUAGES)
  /\ validateLanguage (Some (js "EN")) = mkLangValidation true (js "en") None.
Proof.
  split; [|reflexivity].
  rewrite supported_cases. intros [E|E]; discriminate.
Qed.

(** C5, amended: language validation always yields one of the two
    supported codes. An absent or empty argument yields the default code
    [sv] with no warning; an argument whose lower-case form is a supported
    code yields that code with no warning; every other argument yields the
    default code, marked invalid, with the warning text. *)
Theorem validateLanguage_supported_or_default (lang : option jsstring) :
  let r := validateLanguage lang in
  language r ∈ SUPPORTED_LANGUAGES
  /\ (valid r = true <-> warning r = None)
  /\ (is_Some (warning r) <->
      exists l, lang = Some l /\ l <> []
                /\ toLowerCase l ∉ SUPPORTED_LANGUAGES)
  /\ (is_Some (warning r) -> language r = DEFAULT_LANGUAGE)
  /\ (forall l, lang = Some l -> toLowerCase l ∈ SUPPORTED_LANGUAGES ->
      r = mkLangValidation true (toLowerCase l) None)
  /\ (lang = None \/ lang = Some [] ->
      r = mkLangValidation true DEFAULT_LANGUAGE None).
Proof.
  assert (Hd : DEFAULT_LANGUAGE ∈ SUPPORTED_LANGUAGES)
    by (apply supported_cases; by left).
  assert (Hnone : ~ is_Some (@None jsstring)) by (intros [? ?]; discriminate).
  destruct lang as [[|c s]|]; simpl.
  - split; [done|]. split; [done|]. split; [|split; [|split]].
    + split; [by intros ?%Hnone | by intros (l & [= <-] & Hl & _)].
    + by intros ?%Hnone.
    + intros l [= <-] H. by apply toLowerCase_nil_not_supported in H.
    + done.
  - case_bool_decide as Hs; simpl.
    + split; [done|]. split; [done|]. split; [|split; [|split]].
      * split; [by intros ?%Hnone | by intros (l & [= <-] & _ & Hl)].
      * by intros ?%Hnone.
      * by intros l [= <-] _.
      * intros [H|H]; discriminate.
    + split; [done|]. split; [split; discriminate|].
      split; [|split; [|split]].
      * split; [|by eexists]. intros _. by exists (c :: s).
      * done.
      * by intros l [= <-] H.
      * intros [H|H]; discriminate.
  - split; [done|]. split; [done|]. split; [|split; [|split]].
    + split; [by intros ?%Hnone | intros (l & H & _); discriminate].
    + by intros ?%Hnone.
    + intros l H. discriminate.
    + done.
Qed.

(** Casing variants of an ASCII lower-case word: unit by unit, the unit
    itself or its upper-case form. *)
Definition asciiUpper (c : N) : N :=
  if (97 <=? c) && (c <=? 122) then c - 32 else c.

Definition casingVariant (s word : jsstring) : Prop :=
  Forall2 (fun c d => c = d \/ c = asciiUpper d) s word.

(** C10: every casing variant of a supported code is answered with the
    lower-case code, valid and without warning, as the lower-case code
    itself is. *)
Theorem validateLanguage_case_insensitive (s lcode : jsstring) :
  lcode ∈ SUPPORTED_LANGUAGES ->
  casingVariant s lcode ->
  validateLanguage (Some s) = mkLangValidation true lcode None
  /\ validateLanguage (Some s) = validateLanguage (Some lcode).
Proof.
  intros Hc Hv. apply supported_cases in Hc.
  destruct Hc as [-> | ->];
    inversion Hv as [|c1 d1 s1 w1 H1 Hv1]; subst;
    inversion Hv1 as [|c2 d2 s2 w2 H2 Hv2]; subst;
    inversion Hv2; subst;
    destruct H1 as [-> | ->], H2 as [-> | ->];
    split; reflexivity.
Qed.

Lemma validateLanguage_case_insensitive_SV :
  js "sv" ∈ SUPPORTED_LANGUAGES
  /\ casingVariant (js "SV") (js "sv")
  /\ validateLanguage (Some (js "SV")) = mkLangValidation true (js "sv") None
  /\ validateLanguage (Some (js "SV")) = validateLanguage (Some (js "sv")).
Proof.
  assert (Hc : js "sv" ∈ SUPPORTED_LANGUAGES)
    by (apply supported_cases; left; reflexivity).
  assert (Hv : casingVariant (js "SV") (js "sv"))
    by (repeat (constructor; [right; reflexivity|]); constructor).
  split; [exact Hc|]. split; [exact Hv|].
  exact (validateLanguage_case_insensitive (js "SV") (js "sv") Hc Hv).
Defined.

(** ** Fuzzy region matching *)

(** [fuzzyMatchRegion] answers [true] exactly when one of its tests
    holds, on the strings [normalizeSwedish] and [toLowerCase] produce. *)
Lemma fuzzyMatchRegion_true (query regionName regionCode : jsstring) :
  fuzzyMatchRegion query regionName regionCode = true <->
  normalizeSwedish regionName = normalizeSwedish query
  \/ toLowerCase regionCode = normalizeSwedish query
  \/ includes (normalizeSwedish regionName) (normalizeSwedish query) = true
  \/ includes (normalizeSwedish query) (normalizeSwedish regionName) = true
  \/ includes (toLowerCase regionCode) (normalizeSwedish query) = true.
Proof.
  unfold fuzzyMatchRegion.
  rewrite <- !jsEq_true.
  destruct (jsEq (normalizeSwedish regionName) (normalizeSwedish query)),
    (jsEq (toLowerCase regionCode) (normalizeSwedish query)),
    (includes (normalizeSwedish regionName) (normalizeSwedish query)),
    (includes (normalizeSwedish query) (normalizeSwedish regionName)),
    (includes (toLowerCase regionCode) (normalizeSwedish query));
    simpl; intuition discriminate.
Qed.

(** A region always matches its own name. *)
Lemma fuzzyMatchRegion_own_name (regionName regionCode : jsstring) :
  fuzzyMatchRegion regionName regionName regionCode = true.
Proof.
  unfold fuzzyMatchRegion.
  by rewrite (proj2 (jsEq_true (normalizeSwedish regionName) _)).
Qed.

(** The normalisation of C3 and the stripping of C4, from their words: the
    letters U+00E5 and U+00E4 become [a], U+00F6 becomes [o], U+00E9
    becomes [e] and U+00FC becomes [u]. *)
Definition stripUnit (c : N) : N :=
  if (c =? 229) || (c =? 228) then 97
  else if c =? 246 then 111
  else if c =? 233 then 101
  else if c =? 252 then 117
  else c.

Definition stripDiacritics (s : jsstring) : jsstring := stripUnit <$> s.

Definition specNormalize (s : jsstring) : jsstring :=
  trim (stripDiacritics (toLowerCase s)).

(** The match predicate of C3, from its words. *)
Definition specFuzzyMatch (query regionName regionCode : jsstring) : bool :=
  jsEq (specNormalize regionName) (specNormalize query)
  || jsEq (toLowerCase regionCode) (specNormalize query)
  || includes (specNormalize regionName) (specNormalize query)
  || includes (specNormalize query) (specNormalize regionName)
  || includes regionCode (specNormalize query).

(** The municipality 1480, its name with U+00F6, and the same name as the
    two-unit sequence U+221A U+2202 of the source's patterns. *)
Definition Goteborg_name : jsstring := [71; 246; 116; 101; 98; 111; 114; 103].
Definition Goteborg_two_unit : jsstring :=
  [71; 8730; 8706; 116; 101; 98; 111; 114; 103].

(** [normalizeSwedish] keeps the letter U+00F6; it rewrites the two-unit
    sequence. *)
Example normalizeSwedish_Goteborg :
  normalizeSwedish Goteborg_name = [103; 246; 116; 101; 98; 111; 114; 103]
  /\ normalizeSwedish Goteborg_two_unit = js "goteborg"
  /\ specNormalize Goteborg_name = js "goteborg".
Proof. repeat split; reflexivity. Qed.

(** C3, at the query [Goteborg] for the region named with U+00F6: the
    predicate of the claim accepts, [fuzzyMatchRegion] rejects. *)
Theorem fuzzyMatchRegion_differs_from_spec_on_Goteborg :
  specFuzzyMatch (js "Goteborg") Goteborg_name (js "1480") = true
  /\ fuzzyMatchRegion (js "Goteborg") Goteborg_name (js "1480") = false.
Proof. split; reflexivity. Qed.

(** The name of the region 1480 stripped of diacritics is [Goteborg], and
    [fuzzyMatchRegion], which no lookup of the module calls, rejects that
    query for the region. *)
Example fuzzyMatchRegion_rejects_stripped_name :
  stripDiacritics Goteborg_name = js "Goteborg"
  /\ fuzzyMatchRegion (stripDiacritics Goteborg_name) Goteborg_name
       (js "1480") = false.
Proof. split; reflexivity. Qed.

(** On a name spelled with the two-unit sequence the stripped query is
    accepted. *)
Example fuzzyMatchRegion_accepts_two_unit_name :
  fuzzyMatchRegion (js "Goteborg") Goteborg_two_unit (js "1480") = true.
Proof. reflexivity. Qed.

(** ** Lookup in the region store

    The lookups of the handlers call [searchRegions] of [./regions.js]. *)

(** Modelled from the spec: the lookup of the Region Reference Store
    ([searchRegions] of [./regions.js], which is not among the source
    files). By section 4.1 of the specification the query and the
    candidate's name are normalised (lowercase, the letters U+00E5 and
    U+00E4 to [a], U+00F6 to [o], U+00E9 to [e], U+00FC to [u], trim); a
    candidate matches if the normalised names are equal, or its code,
    lowercased, equals the normalised query, or one normalised name
    contains the other, or its code contains the normalised query; and
    the results are the matching regions in the store's declaration
    order. *)
Definition lookup (store : list Region) (query : jsstring) : list Region :=
  List.filter (fun r => specFuzzyMatch query (name r) (code r)) store.

(** A store for the examples: a county and a municipality of the west. *)
Definition Goteborg : Region :=
  mkRegion (js "1480") Goteborg_name municipality (Some (js "14")).

Definition westStore : list Region :=
  [mkRegion (js "14")
     (js "V" ++ [228] ++ js "stra G" ++ [246] ++ js "talands l" ++ [228]
      ++ js "n")
     county None;
   Goteborg].





(** The query [Goteborg] finds the municipality, and only it, in the
    store of the examples. *)
Example lookup_Goteborg :
  stripDiacritics (name Goteborg) = js "Goteborg"
  /\ lookup westStore (js "Goteborg") = [Goteborg].
Proof. split; reflexivity. Qed.

(** ** Objects filled by a loop over entries *)

Section AssignEach.

Context {V W : Type} (f : V -> W).

Lemma assign_entries_lookup (l : list (jsstring * V))
    (target : gmap jsstring W) (k : jsstring) :
  NoDup l.*1 ->
  foldl (fun target kv =>
           if jsEq kv.1 (js "__proto__") then target
           else <[kv.1 := f kv.2]> target) target l !! k
  = if decide (k = js "__proto__") then target !! k
    else match (list_to_map l : gmap jsstring V) !! k with
         | Some v => Some (f v)
         | None => target !! k
         end.
Proof.
  revert target. induction l as [|[k' v] l IH]; intros target Hnd; simpl.
  - rewrite lookup_empty. by destruct (decide _).
  - apply NoDup_cons in Hnd as [Hk' Hnd]. rewrite IH by done.
    apply (not_elem_of_list_to_map_1 (M := gmap jsstring)) in Hk'.
    simpl in Hk'. unfold jsEq.
    destruct (decide (k = js "__proto__")) as [->|Hk].
    + case_bool_decide as Hp; [done|]. by rewrite lookup_insert_ne.
    + case_bool_decide as Hp.
      * subst k'. by rewrite lookup_insert_ne.
      * destruct (decide (k' = k)) as [->|Hne].
        -- by rewrite Hk', !lookup_insert_eq.
        -- by rewrite !lookup_insert_ne.
Qed.

(** The object holds the image of every entry but the one of
    [__proto__]. *)
Lemma assignEach_fmap (o : gmap jsstring V) :
  assignEach f o = f <$> delete (js "__proto__") o.
Proof.
  apply map_eq. intros k. unfold assignEach.
  rewrite assign_entries_lookup by apply NoDup_fst_map_to_list.
  rewrite list_to_map_to_list, lookup_fmap, lookup_empty.
  destruct (decide (k = js "__proto__")) as [->|Hk].
  - by rewrite lookup_delete_eq.
  - rewrite lookup_delete_ne by done. by destruct (o !! k).
Qed.

Lemma assignEach_lookup (o : gmap jsstring V) (k : jsstring) :
  k <> js "__proto__" -> assignEach f o !! k = f <$> o !! k.
Proof.
  intros Hk. by rewrite assignEach_fmap, lookup_fmap, lookup_delete_ne.
Qed.

Lemma assignEach_lookup_proto (o : gmap jsstring V) :
  assignEach f o !! js "__proto__" = None.
Proof. by rewrite assignEach_fmap, lookup_fmap, lookup_delete_eq. Qed.

Lemma assignEach_lookup_Some (o : gmap jsstring V) (k : jsstring) (w : W) :
  assignEach f o !! k = Some w ->
  k <> js "__proto__" /\ exists v, o !! k = Some v /\ w = f v.
Proof.
  intros H. destruct (decide (k = js "__proto__")) as [->|Hk].
  - by rewrite assignEach_lookup_proto in H.
  - rewrite assignEach_lookup in H by done. split; [done|].
    destruct (o !! k) as [v|]; [|done]. injection H as <-. by exists v.
Qed.

Lemma assignEach_dom (o : gmap jsstring V) :
  dom (assignEach f o) = dom o ∖ {[ js "__proto__" ]}.
Proof. by rewrite assignEach_fmap, dom_fmap_L, dom_delete_L. Qed.

(** An object without the key [__proto__] is copied key by key. *)
Lemma assignEach_fmap_plain (o : gmap jsstring V) :
  o !! js "__proto__" = None -> assignEach f o = f <$> o.
Proof. intros H. by rewrite assignEach_fmap, delete_id. Qed.

End AssignEach.

(** ** Preview clamp *)

Definition starToTop3 (v : jsstring) : jsstring :=
  if jsEq v (js "*") then js "TOP(3)" else v.

Lemma previewValues_expression (values : list jsstring) :
  existsb isExpression values = true ->
  previewValues values = starToTop3 <$> values.
Proof. unfold previewValues. by intros ->. Qed.

Lemma previewValues_plain (values : list jsstring) :
  existsb isExpression values = false ->
  previewValues values = take 3 values.
Proof. unfold previewValues. by intros ->. Qed.

Lemma star_isExpression : isExpression (js "*") = true.
Proof. reflexivity. Qed.

Lemma existsb_star (values : list jsstring) :
  js "*" ∈ values -> existsb isExpression values = true.
Proof.
  intros H. apply existsb_exists. exists (js "*").
  split; [by apply list_elem_of_In | apply star_isExpression].
Qed.

Lemma previewValues_length (values : list jsstring) :
  (length (previewValues values) <= length values)%nat.
Proof.
  unfold previewValues. destruct (existsb isExpression values).
  - by rewrite length_fmap.
  - rewrite length_take. lia.
Qed.

Lemma previewValues_star (values : list jsstring) (i : nat) :
  values !! i = Some (js "*") ->
  previewValues values !! i = Some (js "TOP(3)").
Proof.
  intros H. rewrite previewValues_expression.
  - by rewrite list_lookup_fmap, H.
  - apply existsb_star. by eapply list_elem_of_lookup_2.
Qed.

Lemma previewValues_no_star (values : list jsstring) :
  js "*" ∉ previewValues values.
Proof.
  unfold previewValues. destruct (existsb isExpression values) eqn:E.
  - intros (v & Hv & _)%list_elem_of_fmap. revert Hv.
    fold (starToTop3 v). unfold starToTop3.
    destruct (jsEq v (js "*")) eqn:Ev; [discriminate|].
    intros <-. by rewrite (proj2 (jsEq_true _ _)) in Ev.
  - intros H%subseteq_take. apply existsb_star in H. congruence.
Qed.

(** C1, counterexample: a list of four tokens that holds [*] keeps its
    four entries. *)
Lemma previewSelection_keeps_four_tokens :
  exists out,
    previewSelection
      (Some {[ js "Tid" := [js "*"; js "2021"; js "2022"; js "2023"] ]})
      ≫= (fun clamped => clamped !! js "Tid") = Some out
    /\ out = [js "TOP(3)"; js "2021"; js "2022"; js "2023"]
    /\ ~ (length out <= 3)%nat.
Proof.
  eexists. split; [|split].
  - simpl. rewrite assignEach_lookup by discriminate.
    rewrite lookup_singleton_eq. reflexivity.
  - reflexivity.
  - simpl. lia.
Qed.

(** C1, amended: for every dimension of the selection other than one
    named [__proto__], the clamped selection holds that dimension, and it
    holds no dimension that the selection lacks. A list with no [*] and no
    token starting with [TOP(] or [BOTTOM(] is cut to its first three
    entries; any other list keeps its length, each [*] replaced by
    [TOP(3)] and every other token, [TOP(n)] and [BOTTOM(n)] included,
    left as it is. *)
Theorem previewSelection_clamp (sel : Selection) (dim : jsstring)
    (values : list jsstring) :
  sel !! dim = Some values ->
  dim <> js "__proto__" ->
  exists clamped out,
    previewSelection (Some sel) = Some clamped
    /\ dom clamped ⊆ dom sel
    /\ clamped !! dim = Some out
    /\ (existsb isExpression values = false ->
        out = take 3 values /\ (length out <= 3)%nat)
    /\ (existsb isExpression values = true ->
        length out = length values
        /\ forall i v, values !! i = Some v ->
             out !! i = Some (if jsEq v (js "*") then js "TOP(3)" else v)).
Proof.
  intros Hdim Hp.
  exists (assignEach previewValues sel), (previewValues values).
  split; [done|]. split; [rewrite assignEach_dom; apply subseteq_difference_l; done|].
  split; [by rewrite assignEach_lookup, Hdim|]. split.
  - intros E. rewrite previewValues_plain by done.
    split; [done|]. rewrite length_take. lia.
  - intros E. rewrite previewValues_expression by done.
    split; [by rewrite length_fmap|].
    intros i v Hv. by rewrite list_lookup_fmap, Hv.
Qed.

Lemma previewSelection_clamp_Tid :
  let sel : Selection :=
    {[ js "Tid" := [js "TOP(5)"; js "*"; js "2021"; js "2022"] ]} in
  sel !! js "Tid" = Some [js "TOP(5)"; js "*"; js "2021"; js "2022"]
  /\ js "Tid" <> js "__proto__"
  /\ exists clamped out,
      previewSelection (Some sel) = Some clamped
      /\ dom clamped ⊆ dom sel
      /\ clamped !! js "Tid" = Some out
      /\ (existsb isExpression [js "TOP(5)"; js "*"; js "2021"; js "2022"]
          = false ->
          out = take 3 [js "TOP(5)"; js "*"; js "2021"; js "2022"]
          /\ (length out <= 3)%nat)
      /\ (existsb isExpression [js "TOP(5)"; js "*"; js "2021"; js "2022"]
          = true ->
          length out = length [js "TOP(5)"; js "*"; js "2021"; js "2022"]
          /\ forall i v,
               [js "TOP(5)"; js "*"; js "2021"; js "2022"] !! i = Some v ->
               out !! i
               = Some (if jsEq v (js "*") then js "TOP(3)" else v)).
Proof.
  intros sel.
  assert (H : sel !! js "Tid"
              = Some [js "TOP(5)"; js "*"; js "2021"; js "2022"])
    by apply lookup_singleton_eq.
  assert (Hp : js "Tid" <> js "__proto__") by discriminate.
  split; [exact H|]. split; [exact Hp|].
  exact (previewSelection_clamp sel (js "Tid") _ H Hp).
Defined.

(** For a dimension other than [__proto__] the preview clamp never
    lengthens the token list and turns every [*] of it into [TOP(3)], so
    that no [*] is left. *)
Lemma previewSelection_never_grows (sel : Selection) (dim : jsstring)
    (values : list jsstring) :
  sel !! dim = Some values ->
  dim <> js "__proto__" ->
  exists clamped out,
    previewSelection (Some sel) = Some clamped
    /\ clamped !! dim = Some out
    /\ (length out <= length values)%nat
    /\ (forall i, values !! i = Some (js "*") ->
        out !! i = Some (js "TOP(3)"))
    /\ js "*" ∉ out.
Proof.
  intros Hdim Hp.
  exists (assignEach previewValues sel), (previewValues values).
  split; [done|]. split; [by rewrite assignEach_lookup, Hdim|].
  split; [apply previewValues_length|].
  split; [intros i; apply previewValues_star | apply previewValues_no_star].
Qed.

(** The clamp of a selection has no dimension [__proto__], whatever the
    selection holds under that name. *)
Lemma previewSelection_without_proto (sel clamped : Selection) :
  previewSelection (Some sel) = Some clamped ->
  clamped !! js "__proto__" = None.
Proof. intros [= <-]. apply assignEach_lookup_proto. Qed.

(** C9, at the selection whose only dimension, [__proto__], asks for [*]:
    the clamped selection is empty, so the dimension is lost and its [*]
    is not turned into [TOP(3)]; next to a dimension [Tid] that asks for
    [*] too, only [Tid] is left, with [TOP(3)]. *)
Theorem previewSelection_drops_proto_dimension :
  previewSelection (Some {[ js "__proto__" := [js "*"] ]}) = Some ∅
  /\ previewSelection
       (Some (<[ js "__proto__" := [js "*"] ]> {[ js "Tid" := [js "*"] ]}))
     = Some {[ js "Tid" := [js "TOP(3)"] ]}.
Proof.
  unfold previewSelection. rewrite !assignEach_fmap. split; f_equal.
Qed.

(** ** Answers as JSON objects *)

Lemma jget_jset_eq (k : jsstring) (v : json) (fields : list (jsstring * json)) :
  jget k (jset k v fields) = Some v.
Proof.
  induction fields as [|[k' v'] fields IH]; simpl.
  - by rewrite (proj2 (jsEq_true k k)).
  - destruct (jsEq k' k) eqn:E; simpl.
    + by rewrite (proj2 (jsEq_true k k)).
    + by rewrite E.
Qed.

Lemma jget_jset_ne (k k' : jsstring) (v : json)
    (fields : list (jsstring * json)) :
  k <> k' -> jget k' (jset k v fields) = jget k' fields.
Proof.
  intros Hne. induction fields as [|[k0 v0] fields IH]; simpl.
  - destruct (jsEq k k') eqn:E; [by apply jsEq_true in E | done].
  - destruct (jsEq k0 k) eqn:E; simpl.
    + apply jsEq_true in E as ->.
      destruct (jsEq k k') eqn:E'; [by apply jsEq_true in E' | done].
    + by rewrite IH.
Qed.

(** ** Effective selection *)

Lemma codes_NoDup (dimDef : Dimension) : NoDup (codes dimDef).
Proof. apply NoDup_fst_map_to_list. Qed.

Lemma codes_index (dimDef : Dimension) :
  list_to_set (codes dimDef) = dom (cat_index (category dimDef)).
Proof. unfold codes. symmetry. apply leibniz_equiv, dom_alt. Qed.

Lemma effectiveSelection_lookup (data : Dataset) (dim : jsstring) :
  dim <> js "__proto__" ->
  effectiveSelection data !! dim
  = codes <$> (default ∅ (dimension data) !! dim).
Proof.
  intros Hp. unfold effectiveSelection.
  destruct (dimension data) as [dims|]; simpl.
  - by apply assignEach_lookup.
  - by rewrite !lookup_empty.
Qed.

Lemma effectiveSelection_lookup_proto (data : Dataset) :
  effectiveSelection data !! js "__proto__" = None.
Proof.
  unfold effectiveSelection. destruct (dimension data) as [dims|].
  - apply assignEach_lookup_proto.
  - apply lookup_empty.
Qed.

Lemma effectiveSelection_dom (data : Dataset) :
  dom (effectiveSelection data)
  = dom (default ∅ (dimension data)) ∖ {[ js "__proto__" ]}.
Proof.
  unfold effectiveSelection. destruct (dimension data) as [dims|]; simpl.
  - apply assignEach_dom.
  - rewrite !dom_empty_L. set_solver.
Qed.

(** The answer carries, under [query.effective_selection], the effective
    selection read from [data]. *)
Definition reportsEffectiveSelection (answer : json) (data : Dataset) : Prop :=
  exists query,
    field (js "query") answer = Some query
    /\ field (js "effective_selection") query
       = Some (jsonOfSelection (effectiveSelection data)).

Lemma queryWith_effective_selection (structuredData : StructuredData)
    (selection : option Selection) (data : Dataset)
    (langValidation : LangValidation) :
  field (js "effective_selection")
    (queryWith structuredData selection data langValidation)
  = Some (jsonOfSelection (effectiveSelection data)).
Proof.
  unfold queryWith, field.
  rewrite !jget_jset_ne by discriminate. apply jget_jset_eq.
Qed.

(** A client for the examples: one table with a time dimension of two
    periods, whatever is asked. *)
Definition sampleData : Dataset :=
  mkDataset (js "Population")
    (Some {[ js "Tid" :=
               mkDimension (js "year")
                 (mkCategory {[ js "2023" := 0; js "2024" := 1 ]} None) ]})
    [2].

Definition sampleStructured : StructuredData :=
  mkStructuredData
    [(js "query", JObj [(js "table_id", JStr (js "TAB638"))]);
     (js "data", JArr [JObj [(js "Tid", JStr (js "2023"));
                             (js "value", JNum 10551707)];
                       JObj [(js "Tid", JStr (js "2024"));
                             (js "value", JNum 10587710)]]);
     (js "metadata", JObj [(js "table_name", JStr (js "Population"))]);
     (js "summary", JObj [(js "total_records", JNum 2)])].

Definition sampleClient : Client :=
  fun X c =>
    match c in ApiCall X return Result X with
    | searchTables _ => Thrown (js "search failed")
    | getTableMetadata _ _ => Returned sampleData
    | getTableData _ _ _ => Returned sampleData
    | transformToStructuredData _ _ => Returned sampleStructured
    | validateSelection _ _ _ => Thrown (js "validation failed")
    end.

Definition top5 : Selection := {[ js "Tid" := [js "TOP(5)"] ]}.




(** X31: when the fetch and its transformation succeed,
    [handleGetTableData] reports under [query.effective_selection] the
    effective selection of the data set it received, whatever selection
    was asked for. That selection has the dimensions of the data set other
    than [__proto__], and lists for each of them, without repetition,
    exactly the codes of the dimension's index; it never has a dimension
    [__proto__]. *)
Theorem effective_selection_is_response_index
    (scbErrorOf : jsstring -> option ScbError) (client : Client)
    (tableId : jsstring) (selection : option Selection)
    (lang : option jsstring) (data : Dataset)
    (structuredData : StructuredData) :
  client _ (getTableData tableId selection
              (language (validateLanguage lang))) = Returned data ->
  client _ (transformToStructuredData data selection)
    = Returned structuredData ->
  reportsEffectiveSelection
    (run client (handleGetTableData scbErrorOf tableId selection lang)).1
    data
  /\ dom (effectiveSelection data)
     = dom (default ∅ (dimension data)) ∖ {[ js "__proto__" ]}
  /\ forall dim dimDef,
       dim <> js "__proto__" ->
       default ∅ (dimension data) !! dim = Some dimDef ->
       exists reported,
         effectiveSelection data !! dim = Some reported
         /\ NoDup reported
         /\ list_to_set reported = dom (cat_index (category dimDef)).
Proof.
  intros Hdata Hsd. split; [|split].
  - simpl. rewrite Hdata. simpl. rewrite Hsd. simpl.
    eexists. split; [apply jget_jset_eq|].
    apply queryWith_effective_selection.
  - apply effectiveSelection_dom.
  - intros dim dimDef Hp Hdim. exists (codes dimDef).
    rewrite effectiveSelection_lookup, Hdim by done.
    split; [done|]. split; [apply codes_NoDup | apply codes_index].
Qed.

Lemma effective_selection_sample :
  reportsEffectiveSelection
    (run sampleClient
       (handleGetTableData (fun _ => None) (js "TAB638") (Some top5) None)).1
    sampleData
  /\ dom (effectiveSelection sampleData)
     = dom (default ∅ (dimension sampleData)) ∖ {[ js "__proto__" ]}
  /\ forall dim dimDef,
       dim <> js "__proto__" ->
       default ∅ (dimension sampleData) !! dim = Some dimDef ->
       exists reported,
         effectiveSelection sampleData !! dim = Some reported
         /\ NoDup reported
         /\ list_to_set reported = dom (cat_index (category dimDef)).
Proof.
  exact (effective_selection_is_response_index (fun _ => None) sampleClient
           (js "TAB638") (Some top5) None sampleData sampleStructured
           eq_refl eq_refl).
Defined.

(** Five periods were asked for, the two of the index are reported. *)
Example effectiveSelection_sample_Tid :
  exists reported,
    effectiveSelection sampleData !! js "Tid" = Some reported
    /\ reported ≡ₚ [js "2023"; js "2024"].
Proof.
  eexists. split; [vm_compute; reflexivity|].
  first [reflexivity | apply Permutation_swap].
Qed.

(** ** Testing a selection *)

Lemma isEmptySelection_true (selection : option Selection) :
  isEmptySelection selection = true
  <-> selection = None \/ selection = Some ∅.
Proof.
  destruct selection as [s|]; simpl; [|by intuition].
  split.
  - intros H. right. f_equal. apply map_to_list_empty_iff.
    destruct (map_to_list s); [done | discriminate].
  - intros [H|[= ->]]; [discriminate|]. by rewrite map_to_list_empty.
Qed.

(** C2: when the table's metadata can be fetched, testing an absent or
    empty selection answers [is_valid: true] and [selection_provided:
    false] with no [error] and no [errors] field; the handler asks the
    client for the metadata and for nothing else (no selection is
    validated or sent), and names under [effective_selection] that the
    API will determine it. *)
Theorem handleTestSelection_empty_is_valid (client : Client)
    (tableId : jsstring) (selection : option Selection)
    (lang : option jsstring) (metadata : Dataset) :
  selection = None \/ selection = Some ∅ ->
  client _ (getTableMetadata tableId (language (validateLanguage lang)))
    = Returned metadata ->
  exists answer,
    run client (handleTestSelection tableId selection lang)
    = (answer,
       [logged (getTableMetadata tableId
                  (language (validateLanguage lang)))])
    /\ field (js "is_valid") answer = Some (JBool true)
    /\ field (js "selection_provided") answer = Some (JBool false)
    /\ field (js "error") answer = None
    /\ field (js "errors") answer = None
    /\ field (js "selection") answer = None
    /\ field (js "effective_selection") answer = Some (JStr determinedByApi).
Proof.
  intros Hsel Hmeta. apply isEmptySelection_true in Hsel.
  unfold handleTestSelection. rewrite Hsel. simpl. rewrite Hmeta.
  eexists. split; [reflexivity|]. repeat split.
Qed.

Lemma handleTestSelection_empty_sample :
  (Some (∅ : Selection) = None \/ Some (∅ : Selection) = Some ∅)
  /\ exists answer,
      run sampleClient (handleTestSelection (js "TAB638") (Some ∅) None)
      = (answer,
         [logged (getTableMetadata (js "TAB638")
                    (language (validateLanguage None)))])
      /\ field (js "is_valid") answer = Some (JBool true)
      /\ field (js "selection_provided") answer = Some (JBool false)
      /\ field (js "error") answer = None
      /\ field (js "errors") answer = None
      /\ field (js "selection") answer = None
      /\ field (js "effective_selection") answer
         = Some (JStr determinedByApi).
Proof.
  assert (H : Some (∅ : Selection) = None \/ Some (∅ : Selection) = Some ∅)
    by (right; reflexivity).
  split; [exact H|].
  exact (handleTestSelection_empty_is_valid sampleClient (js "TAB638")
           (Some ∅) None sampleData H eq_refl).
Defined.

(** ** Region codes *)

Section FindRegionCode.

Variable ALL_REGIONS : list Region.
Variable REGION_STATS : RegionStats.
Variable searchRegions : jsstring -> list Region.
Variable normalizeForSearch : jsstring -> jsstring.

Let findRegionCode :=
  handleFindRegionCode ALL_REGIONS REGION_STATS searchRegions
    normalizeForSearch.

(** Without a table id the handler is a plain answer: no client call. *)
Lemma findRegionCode_without_table (query : jsstring)
    (tableId lang : option jsstring) :
  truthy tableId = false ->
  exists answer, findRegionCode query tableId lang = Ret answer.
Proof.
  intros Ht. unfold findRegionCode, handleFindRegionCode. rewrite Ht.
  destruct (nonEmpty (searchRegions query)); simpl; eauto.
Qed.

(** C7: when the local database has a match and no table id is given
    (absent, or empty), [handleFindRegionCode] answers from the local
    database, with the first local match as primary match, and issues no
    client call; whatever the arguments, a client call is issued only
    when a table id is given. *)
Theorem handleFindRegionCode_local_first (client : Client)
    (query : jsstring) (tableId lang : option jsstring)
    (r0 : Region) (others : list Region) :
  searchRegions query = r0 :: others ->
  truthy tableId = false ->
  (exists answer,
     run client (findRegionCode query tableId lang) = (answer, [])
     /\ field (js "source") answer = Some (JStr (js "local_database"))
     /\ field (js "match_type") answer = Some (JStr (js "exact_matches"))
     /\ field (js "primary_match") answer
        = Some (localResult ALL_REGIONS true (js "exact") r0)
     /\ field (js "usage_example") answer
        = Some (JObj [(js "Region", JArr [JStr (code r0)])])
     /\ field (js "total_matches") answer
        = Some (JNat (length (searchRegions query))))
  /\ forall (query' : jsstring) (tableId' lang' : option jsstring),
       (run client (findRegionCode query' tableId' lang')).2 <> [] ->
       truthy tableId' = true.
Proof.
  intros Hsearch Ht. split.
  - unfold findRegionCode, handleFindRegionCode.
    rewrite Hsearch, Ht. simpl.
    eexists. split; [reflexivity|]. repeat split.
  - intros query' tableId' lang' Hlog.
    destruct (truthy tableId') eqn:Ht'; [done|].
    destruct (findRegionCode_without_table query' tableId' lang' Ht')
      as [answer Hret].
    by rewrite Hret in Hlog.
Qed.

End FindRegionCode.

(** A region database of three entries for the examples. *)
Definition sampleRegions : list Region :=
  [mkRegion (js "00") (js "Riket") country None;
   mkRegion (js "01") (js "Stockholms l" ++ [228] ++ js "n") county None;
   mkRegion (js "0180") (js "Stockholm") municipality (Some (js "01"))].

Definition sampleSearchRegions (query : jsstring) : list Region :=
  List.filter (fun r => fuzzyMatchRegion query (name r) (code r))
    sampleRegions.

Definition Stockholm : Region :=
  mkRegion (js "0180") (js "Stockholm") municipality (Some (js "01")).

Lemma handleFindRegionCode_local_first_sample :
  sampleSearchRegions (js "0180") = [Stockholm]
  /\ truthy None = false
  /\ (exists answer,
        run sampleClient
          (handleFindRegionCode sampleRegions (mkRegionStats 3 1 1)
             sampleSearchRegions normalizeSwedish (js "0180") None None)
        = (answer, [])
        /\ field (js "source") answer = Some (JStr (js "local_database"))
        /\ field (js "match_type") answer
           = Some (JStr (js "exact_matches"))
        /\ field (js "primary_match") answer
           = Some (localResult sampleRegions true (js "exact") Stockholm)
        /\ field (js "usage_example") answer
           = Some (JObj [(js "Region", JArr [JStr (code Stockholm)])])
        /\ field (js "total_matches") answer
           = Some (JNat (length (sampleSearchRegions (js "0180")))))
  /\ forall (query' : jsstring) (tableId' lang' : option jsstring),
       (run sampleClient
          (handleFindRegionCode sampleRegions (mkRegionStats 3 1 1)
             sampleSearchRegions normalizeSwedish query' tableId' lang')).2
       <> [] ->
       truthy tableId' = true.
Proof.
  split; [reflexivity|]. split; [reflexivity|].
  exact (handleFindRegionCode_local_first sampleRegions
           (mkRegionStats 3 1 1) sampleSearchRegions normalizeSwedish
           sampleClient (js "0180") None None Stockholm [] eq_refl eq_refl).
Defined.

(** The primary match of the example, written out. *)
Example localResult_Stockholm :
  localResult sampleRegions true (js "exact") Stockholm
  = JObj [(js "code", JStr (js "0180"));
          (js "name", JStr (js "Stockholm"));
          (js "type", JStr (js "municipality"));
          (js "county", JStr (js "Stockholms l" ++ [228] ++ js "n"));
          (js "match_type", JStr (js "exact"))].
Proof. reflexivity. Qed.

(** ** Page size *)

Lemma cappedPageSize_le (pageSize : option Q) :
  (cappedPageSize pageSize <= MAX_PAGE_SIZE)%Q.
Proof.
  unfold cappedPageSize.
  match goal with |- context [Qle_bool ?q _] =>
    destruct (Qle_bool q MAX_PAGE_SIZE) eqn:E end.
  - by apply Qle_bool_iff.
  - apply Qle_refl.
Qed.

Lemma cappedPageSize_above (n : Q) :
  (MAX_PAGE_SIZE < n)%Q -> cappedPageSize (Some n) = MAX_PAGE_SIZE.
Proof.
  intros Hn. unfold cappedPageSize.
  assert (Hnz : Qeq_bool n 0 = false).
  { destruct (Qeq_bool n 0) eqn:E; [|done].
    apply Qeq_bool_eq in E. rewrite E in Hn. by vm_compute in Hn. }
  rewrite Hnz.
  destruct (Qle_bool n MAX_PAGE_SIZE) eqn:E; [|done].
  apply Qle_bool_iff in E. by apply Qle_not_lt in E.
Qed.

(** C8: [handleSearchTables] first asks the client for a page whose size
    is the capped page size; that size is at most 100, is exactly 100 when
    more than 100 was asked for, and is 20 when no size was given. *)
Theorem handleSearchTables_page_size (args : SearchArgs) :
  exists used k,
    handleSearchTables args
    = Call (searchTables
              (mkSearchParams args
                 (language (validateLanguage (arg_language args))) used)) k
    /\ used = cappedPageSize (arg_pageSize args)
    /\ (used <= 100)%Q
    /\ (forall n, arg_pageSize args = Some n -> (100 < n)%Q -> used = 100%Q)
    /\ (arg_pageSize args = None -> used = 20%Q).
Proof.
  eexists _, _. split; [reflexivity|]. split; [reflexivity|].
  split; [apply cappedPageSize_le|]. split.
  - intros n -> Hn. by apply cappedPageSize_above.
  - by intros ->.
Qed.

(** The size echoed in the answer and used to cut the list of tables is
    the same capped size. *)
Example handleSearchTables_500 :
  cappedPageSize (Some 500%Q) = 100%Q
  /\ cappedPageSize (Some 0%Q) = 20%Q
  /\ cappedPageSize (Some 7%Q) = 7%Q.
Proof. repeat split; reflexivity. Qed.

(** * Further properties *)

(** ** Lower case, white space and replacement *)

Ltac decide_comparisons :=
  repeat match goal with
    | |- context [N.leb ?a ?b] =>
        first [ rewrite (proj2 (N.leb_le a b)) by lia
              | rewrite (proj2 (N.leb_gt a b)) by lia ]
    | |- context [N.eqb ?a ?b] =>
        first [ rewrite (proj2 (N.eqb_eq a b)) by lia
              | rewrite (proj2 (N.eqb_neq a b)) by lia ]
    end.

(** The three cases of [lowerUnit]. *)
Lemma lowerUnit_cases (c : N) :
  (65 <= c <= 90 /\ lowerUnit c = c + 32)
  \/ (192 <= c <= 222 /\ c <> 215 /\ lowerUnit c = c + 32)
  \/ ((c < 65 \/ 90 < c < 192 \/ c = 215 \/ 222 < c) /\ lowerUnit c = c).
Proof.
  unfold lowerUnit.
  destruct (N.leb_spec 65 c), (N.leb_spec c 90); simpl; try (left; lia);
    destruct (N.leb_spec 192 c), (N.leb_spec c 222), (N.eqb_spec c 215);
    simpl; first [ right; left; lia | right; right; lia ].
Qed.

Lemma lowerUnit_idem (c : N) : lowerUnit (lowerUnit c) = lowerUnit c.
Proof.
  destruct (lowerUnit_cases c) as [[H E]|[(H & H' & E)|[H E]]];
    rewrite !E; [| |done]; unfold lowerUnit; by decide_comparisons.
Qed.

Lemma lowerUnit_whiteSpace (c : N) :
  isWhiteSpace (lowerUnit c) = isWhiteSpace c.
Proof.
  destruct (lowerUnit_cases c) as [[H E]|[(H & H' & E)|[H E]]];
    rewrite !E; [| |done]; unfold isWhiteSpace; by decide_comparisons.
Qed.

Lemma lowerUnit_sqrt (c : N) : lowerUnit c = 8730 -> c = 8730.
Proof.
  destruct (lowerUnit_cases c) as [[H E]|[(H & H' & E)|[H E]]];
    rewrite E; lia.
Qed.

Lemma lowerUnit_digit (c : N) : 48 <= c <= 57 -> lowerUnit c = c.
Proof.
  intros H. destruct (lowerUnit_cases c) as [[? ?]|[(? & ? & ?)|[? ?]]];
    [lia | lia | done].
Qed.

Lemma toLowerCase_idem (s : jsstring) :
  toLowerCase (toLowerCase s) = toLowerCase s.
Proof.
  unfold toLowerCase. rewrite <- list_fmap_compose.
  apply list_fmap_ext. intros _ c _. apply lowerUnit_idem.
Qed.

Lemma toLowerCase_app (s t : jsstring) :
  toLowerCase (s ++ t) = toLowerCase s ++ toLowerCase t.
Proof. apply fmap_app. Qed.

Lemma toLowerCase_whiteSpace (s : jsstring) :
  Forall (fun c => isWhiteSpace c = true) s -> toLowerCase s = s.
Proof.
  induction 1 as [|c s Hc _ IH]; [done|]. simpl. f_equal; [|exact IH].
  destruct (lowerUnit_cases c) as [[H E]|[(H & H' & E)|[H E]]];
    [exfalso | exfalso | done];
    revert Hc; unfold isWhiteSpace; by decide_comparisons.
Qed.

Lemma toLowerCase_no_sqrt (s : jsstring) :
  (8730 ∉ s) -> (8730 ∉ toLowerCase s).
Proof.
  intros Hs (c & Hc & Hin)%list_elem_of_fmap.
  symmetry in Hc. apply lowerUnit_sqrt in Hc. by subst.
Qed.

(** A pattern whose first unit does not occur in the string is never
    found. *)
Lemma replace_g_absent (a : N) (pat rep s : jsstring) :
  (a ∉ s) -> replace_g (a :: pat) rep s = s.
Proof.
  unfold replace_g. induction s as [|c s IH]; [done|].
  intros [Hc Hs]%not_elem_of_cons. simpl.
  rewrite (proj2 (N.eqb_neq a c)) by done. simpl. by rewrite IH.
Qed.

(** ** Trimming *)

Definition blank (s : jsstring) : Prop :=
  Forall (fun c => isWhiteSpace c = true) s.

Lemma trimStart_blank (pre s : jsstring) :
  blank pre -> trimStart (pre ++ s) = trimStart s.
Proof. induction 1 as [|c pre Hc _ IH]; [done|]. simpl. by rewrite Hc. Qed.

Lemma trimStart_suffix (s : jsstring) :
  exists pre, blank pre /\ s = pre ++ trimStart s.
Proof.
  induction s as [|c s (pre & Hpre & IH)].
  - exists []. split; [constructor | done].
  - simpl. destruct (isWhiteSpace c) eqn:E.
    + exists (c :: pre). split; [by constructor | simpl; by f_equal].
    + exists []. split; [constructor | done].
Qed.

Lemma trimStart_head (s : jsstring) (c : N) (t : jsstring) :
  trimStart s = c :: t -> isWhiteSpace c = false.
Proof.
  induction s as [|d s IH]; [done|]. simpl.
  destruct (isWhiteSpace d) eqn:E; [done|]. by intros [= <- _].
Qed.

Lemma trimStart_fixed (c : N) (t : jsstring) :
  isWhiteSpace c = false -> trimStart (c :: t) = c :: t.
Proof. intros E. simpl. by rewrite E. Qed.

Lemma blank_reverse (s : jsstring) : blank s -> blank (reverse s).
Proof. unfold blank. by rewrite Forall_reverse. Qed.

Lemma trimEnd_blank (s post : jsstring) :
  blank post -> trimEnd (s ++ post) = trimEnd s.
Proof.
  intros H. unfold trimEnd. rewrite reverse_app.
  by rewrite trimStart_blank by by apply blank_reverse.
Qed.

Lemma trimEnd_prefix (s : jsstring) :
  exists post, blank post /\ s = trimEnd s ++ post.
Proof.
  destruct (trimStart_suffix (reverse s)) as (pre & Hpre & E).
  exists (reverse pre). split; [by apply blank_reverse|].
  unfold trimEnd. rewrite <- reverse_app, <- E. by rewrite reverse_involutive.
Qed.

(** [trimEnd] leaves the front of a string alone. *)
Lemma trimEnd_cons (c : N) (t : jsstring) :
  isWhiteSpace c = false -> trimEnd (c :: t) = c :: trimEnd t.
Proof.
  intros Hc. unfold trimEnd. rewrite reverse_cons.
  destruct (trimStart_suffix (reverse t)) as (pre & Hpre & E).
  rewrite E at 1. rewrite <- app_assoc, trimStart_blank by done.
  destruct (trimStart (reverse t)) as [|d u] eqn:Et.
  - simpl. by rewrite Hc.
  - pose proof (trimStart_head _ _ _ Et) as Hd.
    change ((d :: u) ++ [c]) with (d :: (u ++ [c])).
    rewrite trimStart_fixed by done.
    change (d :: (u ++ [c])) with ((d :: u) ++ [c]).
    by rewrite reverse_app.
Qed.

Lemma trim_blank (s : jsstring) : blank s -> trim s = [].
Proof.
  intros H. unfold trim.
  replace (trimStart s) with (@nil N); [done|].
  rewrite <- (app_nil_r s). by rewrite trimStart_blank.
Qed.

Lemma trim_pad (pre s post : jsstring) :
  blank pre -> blank post -> trim (pre ++ s ++ post) = trim s.
Proof.
  intros Hpre Hpost. unfold trim. rewrite trimStart_blank by done.
  destruct (trimStart s) as [|c t] eqn:Es.
  - destruct (trimStart_suffix s) as (ws & Hws & E). rewrite Es in E.
    rewrite app_nil_r in E. subst ws.
    rewrite <- (app_nil_r (s ++ post)), trimStart_blank; [done|].
    apply Forall_app. by split.
  - destruct (trimStart_suffix s) as (ws & Hws & E). rewrite Es in E.
    rewrite E, <- app_assoc, trimStart_blank by done.
    pose proof (trimStart_head _ _ _ Es) as Hc.
    change ((c :: t) ++ post) with (c :: (t ++ post)).
    rewrite trimStart_fixed by done.
    rewrite !trimEnd_cons by done. by rewrite trimEnd_blank.
Qed.

Lemma trim_whiteSpace_commute (s : jsstring) :
  toLowerCase (trimStart s) = trimStart (toLowerCase s).
Proof.
  induction s as [|c s IH]; [done|]. simpl.
  rewrite lowerUnit_whiteSpace. by destruct (isWhiteSpace c).
Qed.

Lemma toLowerCase_reverse (s : jsstring) :
  toLowerCase (reverse s) = reverse (toLowerCase s).
Proof. unfold toLowerCase. by rewrite fmap_reverse. Qed.

Lemma toLowerCase_trim (s : jsstring) :
  toLowerCase (trim s) = trim (toLowerCase s).
Proof.
  unfold trim, trimEnd.
  by rewrite toLowerCase_reverse, trim_whiteSpace_commute,
    toLowerCase_reverse, trim_whiteSpace_commute.
Qed.

Lemma trimStart_idem (s : jsstring) : trimStart (trimStart s) = trimStart s.
Proof.
  destruct (trimStart s) as [|c t] eqn:E; [done|].
  apply trimStart_fixed. by eapply trimStart_head.
Qed.

Lemma trimEnd_idem (s : jsstring) : trimEnd (trimEnd s) = trimEnd s.
Proof.
  unfold trimEnd. by rewrite reverse_involutive, trimStart_idem.
Qed.

Lemma trimStart_trimEnd (s : jsstring) :
  trimStart (trimEnd (trimStart s)) = trimEnd (trimStart s).
Proof.
  destruct (trimStart s) as [|c t] eqn:E; [done|].
  pose proof (trimStart_head _ _ _ E) as Hc.
  rewrite trimEnd_cons by done. by apply trimStart_fixed.
Qed.

Lemma trim_idem (s : jsstring) : trim (trim s) = trim s.
Proof. unfold trim. by rewrite trimStart_trimEnd, trimEnd_idem. Qed.

Lemma trimStart_sublist (s : jsstring) (c : N) : c ∈ trimStart s -> c ∈ s.
Proof.
  destruct (trimStart_suffix s) as (pre & _ & E). intros H.
  rewrite E. apply elem_of_app. by right.
Qed.

Lemma trim_elem (s : jsstring) (c : N) : c ∈ trim s -> c ∈ s.
Proof.
  unfold trim. intros H. apply trimStart_sublist.
  destruct (trimEnd_prefix (trimStart s)) as (post & _ & E).
  rewrite E. apply elem_of_app. by left.
Qed.

(** ** Normalisation and matching *)

Lemma blank_not_elem (s : jsstring) (a : N) :
  isWhiteSpace a = false -> blank s -> (a ∉ s).
Proof.
  intros Ha Hs Hin. unfold blank in Hs. rewrite Forall_forall in Hs.
  apply Hs in Hin. congruence.
Qed.

(** Replacement of a two-unit pattern whose units are not white space
    passes over blank text at both ends. *)
Lemma replace_g_blank_prefix (a x : N) (rep pre s : jsstring) :
  isWhiteSpace a = false -> blank pre ->
  replace_g [a; x] rep (pre ++ s) = pre ++ replace_g [a; x] rep s.
Proof.
  intros Ha. unfold replace_g.
  induction 1 as [|c pre Hc _ IH]; [done|]. simpl.
  assert ((a =? c) = false) as -> by (apply N.eqb_neq; congruence).
  simpl. by f_equal.
Qed.

Lemma replace_aux_two (a x : N) (rep : jsstring) (c d : N) (t : jsstring) :
  replace_aux [a; x] rep 0 (c :: d :: t)
  = if (a =? c) && (x =? d)
    then rep ++ replace_aux [a; x] rep 0 t
    else c :: replace_aux [a; x] rep 0 (d :: t).
Proof.
  simpl. destruct (a =? c); simpl; [|done].
  destruct (x =? d); simpl; done.
Qed.

Lemma replace_aux_one (a x : N) (rep : jsstring) (c : N) :
  replace_aux [a; x] rep 0 [c] = [c].
Proof. simpl. destruct (a =? c); simpl; done. Qed.

Lemma replace_g_blank_suffix (a x : N) (rep s post : jsstring) :
  isWhiteSpace a = false -> isWhiteSpace x = false -> blank post ->
  replace_g [a; x] rep (s ++ post) = replace_g [a; x] rep s ++ post.
Proof.
  intros Ha Hx Hpost. unfold replace_g.
  assert (Hp : replace_aux [a; x] rep 0 post = post).
  { change (replace_g [a; x] rep post = post). apply replace_g_absent.
    by apply blank_not_elem. }
  remember (length s) as n eqn:Hn. revert s Hn.
  induction n as [n IH] using lt_wf_ind. intros s Hn.
  destruct s as [|c [|d t]].
  - done.
  - destruct post as [|e post'].
    + by rewrite !app_nil_r.
    + change (([c] ++ e :: post')) with (c :: e :: post').
      rewrite replace_aux_two, replace_aux_one.
      assert ((x =? e) = false) as ->.
      { apply N.eqb_neq. intros ->. inversion Hpost; congruence. }
      rewrite andb_false_r. simpl. f_equal.
      exact Hp.
  - change ((c :: d :: t) ++ post) with (c :: d :: (t ++ post)).
    rewrite !replace_aux_two.
    destruct ((a =? c) && (x =? d)).
    + rewrite <- app_assoc. f_equal.
      apply (IH (length t)); [simpl in Hn; lia | done].
    + simpl app. f_equal.
      change (d :: (t ++ post)) with ((d :: t) ++ post).
      apply (IH (length (d :: t))); [simpl in *; lia | done].
Qed.

Lemma replace_g_pad (a x : N) (rep pre s post : jsstring) :
  isWhiteSpace a = false -> isWhiteSpace x = false ->
  blank pre -> blank post ->
  replace_g [a; x] rep (pre ++ s ++ post)
  = pre ++ replace_g [a; x] rep s ++ post.
Proof.
  intros Ha Hx Hpre Hpost.
  rewrite replace_g_blank_prefix by done.
  by rewrite replace_g_blank_suffix.
Qed.

Lemma normalizeSwedish_pad (pre s post : jsstring) :
  blank pre -> blank post ->
  normalizeSwedish (pre ++ s ++ post) = normalizeSwedish s.
Proof.
  intros Hpre Hpost. unfold normalizeSwedish.
  rewrite !toLowerCase_app.
  rewrite (toLowerCase_whiteSpace pre), (toLowerCase_whiteSpace post) by done.
  unfold pat_a1, pat_a2, pat_o, pat_e, pat_u.
  rewrite !replace_g_pad by done.
  by apply trim_pad.
Qed.

Lemma normalizeSwedish_lower (s : jsstring) :
  normalizeSwedish (toLowerCase s) = normalizeSwedish s.
Proof. unfold normalizeSwedish. by rewrite toLowerCase_idem. Qed.

Lemma normalizeSwedish_plain (s : jsstring) :
  (8730 ∉ s) -> normalizeSwedish s = trim (toLowerCase s).
Proof.
  intros Hs%toLowerCase_no_sqrt. unfold normalizeSwedish.
  unfold pat_a1, pat_a2, pat_o, pat_e, pat_u.
  by do 5 rewrite (replace_g_absent 8730 _ _ (toLowerCase s) Hs).
Qed.

Lemma normalizeSwedish_blank (s : jsstring) :
  blank s -> normalizeSwedish s = [].
Proof.
  intros Hs. rewrite normalizeSwedish_plain by by apply blank_not_elem.
  rewrite toLowerCase_whiteSpace by done. by apply trim_blank.
Qed.

(** X2: on a string that does not hold the unit U+221A, [normalizeSwedish]
    only lower-cases and trims; no letter is replaced. *)
Theorem normalizeSwedish_without_sqrt (s : jsstring) :
  (8730 ∉ s) ->
  normalizeSwedish s = trim (toLowerCase s).
Proof. apply normalizeSwedish_plain. Qed.

Lemma normalizeSwedish_without_sqrt_Goteborg :
  (8730 ∉ Goteborg_name)
  /\ normalizeSwedish Goteborg_name = trim (toLowerCase Goteborg_name).
Proof.
  assert (H : 8730 ∉ Goteborg_name).
  { unfold Goteborg_name. rewrite !not_elem_of_cons.
    repeat split; try (intros E; discriminate E). apply not_elem_of_nil. }
  split; [exact H|]. exact (normalizeSwedish_without_sqrt Goteborg_name H).
Defined.

(** X3: a query that is empty or made of white space only is accepted for
    every region. *)
Theorem fuzzyMatchRegion_blank_query (query regionName regionCode : jsstring) :
  blank query ->
  fuzzyMatchRegion query regionName regionCode = true.
Proof.
  intros Hq. unfold fuzzyMatchRegion.
  rewrite (normalizeSwedish_blank query Hq), includes_empty.
  by destruct (jsEq _ _ || jsEq _ _).
Qed.

Lemma fuzzyMatchRegion_blank_query_spaces :
  blank (js "  ")
  /\ fuzzyMatchRegion (js "  ") (js "Stockholm") (js "0180") = true.
Proof.
  assert (H : blank (js "  ")) by (repeat constructor).
  split; [exact H|].
  exact (fuzzyMatchRegion_blank_query (js "  ") (js "Stockholm") (js "0180") H).
Defined.

(** X4: white space around the query or around the region's name does not
    change the answer. *)
Theorem fuzzyMatchRegion_ignores_padding
    (pre post pre' post' query regionName regionCode : jsstring) :
  blank pre -> blank post -> blank pre' -> blank post' ->
  fuzzyMatchRegion (pre ++ query ++ post) (pre' ++ regionName ++ post')
    regionCode
  = fuzzyMatchRegion query regionName regionCode.
Proof.
  intros. unfold fuzzyMatchRegion. by rewrite !normalizeSwedish_pad.
Qed.

Lemma fuzzyMatchRegion_ignores_padding_Stockholm :
  blank (js " ") /\ blank [9; 10] /\ blank [] /\ blank [160]
  /\ fuzzyMatchRegion (js " " ++ js "stock" ++ [9; 10])
       ([] ++ js "Stockholm" ++ [160]) (js "0180")
     = fuzzyMatchRegion (js "stock") (js "Stockholm") (js "0180").
Proof.
  assert (H1 : blank (js " ")) by (repeat constructor).
  assert (H2 : blank [9; 10]) by (repeat constructor).
  assert (H3 : blank []) by constructor.
  assert (H4 : blank [160]) by (repeat constructor).
  repeat (split; [assumption|]).
  exact (fuzzyMatchRegion_ignores_padding (js " ") [9; 10] [] [160]
           (js "stock") (js "Stockholm") (js "0180") H1 H2 H3 H4).
Defined.

(** X5: the answer depends on the query, the name and the code only
    through their lower-case forms. *)
Theorem fuzzyMatchRegion_ignores_case (query regionName regionCode : jsstring) :
  fuzzyMatchRegion (toLowerCase query) (toLowerCase regionName)
    (toLowerCase regionCode)
  = fuzzyMatchRegion query regionName regionCode.
Proof.
  unfold fuzzyMatchRegion.
  by rewrite !normalizeSwedish_lower, toLowerCase_idem.
Qed.

Definition isDigit (c : N) : Prop := 48 <= c <= 57.

Lemma digits_lower (s : jsstring) : Forall isDigit s -> toLowerCase s = s.
Proof.
  induction 1 as [|c s Hc _ IH]; [done|]. simpl.
  by rewrite lowerUnit_digit, IH.
Qed.

Lemma digit_not_blank (c : N) : isDigit c -> isWhiteSpace c = false.
Proof. unfold isDigit, isWhiteSpace. intros H. by decide_comparisons. Qed.

Lemma digits_trimEnd (s : jsstring) : Forall isDigit s -> trimEnd s = s.
Proof.
  induction 1 as [|c s Hc _ IH]; [done|].
  by rewrite trimEnd_cons, IH by by apply digit_not_blank.
Qed.

Lemma digits_normalizeSwedish (s : jsstring) :
  Forall isDigit s -> normalizeSwedish s = s.
Proof.
  intros Hs. rewrite normalizeSwedish_plain.
  - rewrite digits_lower by done. unfold trim.
    destruct Hs as [|c s Hc Hs]; [done|].
    rewrite trimStart_fixed by by apply digit_not_blank.
    apply digits_trimEnd. by constructor.
  - intros Hin. rewrite Forall_forall in Hs. apply Hs in Hin.
    unfold isDigit in Hin. lia.
Qed.

(** X6: a run of digits that occurs in the region's code is accepted as a
    query for that region, whatever the region's name. *)
Theorem fuzzyMatchRegion_code_digits (query regionName regionCode : jsstring) :
  Forall isDigit query ->
  includes regionCode query = true ->
  fuzzyMatchRegion query regionName regionCode = true.
Proof.
  intros Hq (pre & post & ->)%includes_spec. unfold fuzzyMatchRegion.
  rewrite (digits_normalizeSwedish query Hq).
  assert (includes (toLowerCase (pre ++ query ++ post)) query = true) as ->.
  { apply includes_spec. exists (toLowerCase pre), (toLowerCase post).
    by rewrite !toLowerCase_app, (digits_lower query). }
  destruct (jsEq _ _ || jsEq _ _); [done|].
  by destruct (includes _ query || includes query _).
Qed.

Lemma fuzzyMatchRegion_code_digits_18 :
  Forall isDigit (js "18")
  /\ includes (js "0180") (js "18") = true
  /\ fuzzyMatchRegion (js "18") (js "Stockholm") (js "0180") = true.
Proof.
  assert (H : Forall isDigit (js "18"))
    by (repeat constructor; unfold isDigit; simpl; lia).
  split; [exact H|]. split; [reflexivity|].
  exact (fuzzyMatchRegion_code_digits (js "18") (js "Stockholm") (js "0180")
           H eq_refl).
Defined.

(** ** Language validation, again *)

Lemma validateLanguage_language (lang : option jsstring) :
  language (validateLanguage lang) = js "sv"
  \/ language (validateLanguage lang) = js "en".
Proof.
  apply supported_cases.
  destruct lang as [[|c s]|]; simpl;
    [apply supported_cases; by left | | apply supported_cases; by left].
  case_bool_decide; simpl; [done | apply supported_cases; by left].
Qed.

(** The code [validateLanguage] returns is itself accepted as it is:
    validating it again gives the same code, valid and without warning. *)
Lemma validateLanguage_stable (lang : option jsstring) :
  validateLanguage (Some (language (validateLanguage lang)))
  = mkLangValidation true (language (validateLanguage lang)) None.
Proof. by destruct (validateLanguage_language lang) as [-> | ->]. Qed.

(** ** Preview clamp, again *)

Lemma starToTop3_idem (v : jsstring) :
  starToTop3 (starToTop3 v) = starToTop3 v.
Proof.
  unfold starToTop3. destruct (jsEq v (js "*")) eqn:E; [done|]. by rewrite E.
Qed.

Lemma starToTop3_expression (v : jsstring) :
  isExpression v = true -> isExpression (starToTop3 v) = true.
Proof. unfold starToTop3. by destruct (jsEq v (js "*")). Qed.

Lemma existsb_fmap_starToTop3 (values : list jsstring) :
  existsb isExpression values = true ->
  existsb isExpression (starToTop3 <$> values) = true.
Proof.
  intros (v & Hv & He)%existsb_exists. apply existsb_exists.
  exists (starToTop3 v). split; [|by apply starToTop3_expression].
  apply list_elem_of_In, list_elem_of_fmap_2. by apply list_elem_of_In.
Qed.

Lemma existsb_take (values : list jsstring) (n : nat) :
  existsb isExpression values = false ->
  existsb isExpression (take n values) = false.
Proof.
  intros H. destruct (existsb isExpression (take n values)) eqn:E; [|done].
  apply existsb_exists in E as (v & Hv & He).
  assert (existsb isExpression values = true); [|congruence].
  apply existsb_exists. exists v. split; [|done].
  apply list_elem_of_In. apply list_elem_of_In in Hv.
  by eapply subseteq_take.
Qed.

Lemma previewValues_idem (values : list jsstring) :
  previewValues (previewValues values) = previewValues values.
Proof.
  destruct (existsb isExpression values) eqn:E.
  - rewrite (previewValues_expression values E).
    rewrite previewValues_expression by by apply existsb_fmap_starToTop3.
    rewrite <- list_fmap_compose. apply list_fmap_ext.
    intros _ v _. apply starToTop3_idem.
  - rewrite (previewValues_plain values E).
    rewrite previewValues_plain by by apply existsb_take.
    by rewrite take_take.
Qed.

Lemma previewValues_tokens (values : list jsstring) (token : jsstring) :
  token ∈ previewValues values ->
  token ∈ values \/ token = js "TOP(3)".
Proof.
  unfold previewValues. destruct (existsb isExpression values).
  - intros (v & -> & Hv)%list_elem_of_fmap.
    destruct (jsEq v (js "*")); [by right | by left].
  - intros H. left. by eapply subseteq_take.
Qed.

(** X7: clamping a clamped selection changes nothing. *)
Theorem previewSelection_idempotent (selection : option Selection) :
  previewSelection (previewSelection selection) = previewSelection selection.
Proof.
  destruct selection as [sel|]; [|done]. simpl. f_equal.
  rewrite !assignEach_fmap, <- fmap_delete, delete_delete_eq.
  rewrite <- map_fmap_compose.
  apply map_fmap_ext. intros dim values _. apply previewValues_idem.
Qed.

(** X8: the clamp invents nothing: a dimension of the clamped selection is
    a dimension of the selection, and each of its tokens is a token of the
    original list or [TOP(3)]. *)
Theorem previewSelection_tokens_from_input (sel clamped : Selection)
    (dim : jsstring) (out : list jsstring) :
  previewSelection (Some sel) = Some clamped ->
  clamped !! dim = Some out ->
  exists values,
    sel !! dim = Some values
    /\ forall token, token ∈ out ->
         token ∈ values \/ token = js "TOP(3)".
Proof.
  intros [= <-] (_ & values & Hdim & ->)%assignEach_lookup_Some.
  exists values. split; [done|]. apply previewValues_tokens.
Qed.

Lemma previewSelection_tokens_from_input_Tid :
  let sel : Selection := {[ js "Tid" := [js "*"; js "2021"] ]} in
  let clamped : Selection := {[ js "Tid" := [js "TOP(3)"; js "2021"] ]} in
  previewSelection (Some sel) = Some clamped
  /\ clamped !! js "Tid" = Some [js "TOP(3)"; js "2021"]
  /\ exists values,
      sel !! js "Tid" = Some values
      /\ forall token, token ∈ [js "TOP(3)"; js "2021"] ->
           token ∈ values \/ token = js "TOP(3)".
Proof.
  intros sel clamped.
  assert (H1 : previewSelection (Some sel) = Some clamped).
  { unfold previewSelection. rewrite assignEach_fmap_plain by done.
    unfold sel, clamped. by rewrite map_fmap_singleton. }
  assert (H2 : clamped !! js "Tid" = Some [js "TOP(3)"; js "2021"])
    by apply lookup_singleton_eq.
  split; [exact H1|]. split; [exact H2|].
  exact (previewSelection_tokens_from_input sel clamped (js "Tid") _ H1 H2).
Defined.

(** ** Data handlers: what is sent, what is echoed, what a failure gives *)

(** A client whose every call throws, and one that validates selections. *)
Definition failingClient : Client :=
  fun X _ => Thrown (js "503 Service Unavailable").

Definition rejectingClient : Client :=
  fun X c =>
    match c in ApiCall X return Result X with
    | validateSelection _ _ _ =>
        Returned (mkValidation false None [js "Unknown variable"] [])
    | c' => sampleClient _ c'
    end.

(** X9: a preview asks the client for the clamped selection, and for it
    only. When the summary text is built from the structured data without
    an exception, the answer echoes the caller's selection under
    [query.selection], reports under [query.effective_selection] the
    effective selection of the data set received, and records both
    selections under [preview_info]. *)
Theorem handlePreviewData_sends_clamped
    (templateError : StructuredData -> jsstring) (client : Client)
    (tableId : jsstring) (selection : option Selection)
    (lang : option jsstring) (data : Dataset)
    (structuredData : StructuredData) :
  client _ (getTableData tableId (previewSelection selection)
              (language (validateLanguage lang))) = Returned data ->
  client _ (transformToStructuredData data (previewSelection selection))
    = Returned structuredData ->
  summaryEvaluates structuredData = true ->
  exists answer query info,
    run client (handlePreviewData templateError tableId selection lang)
    = (answer,
       [logged (getTableData tableId (previewSelection selection)
                  (language (validateLanguage lang)));
        logged (transformToStructuredData data
                  (previewSelection selection))])
    /\ field (js "query") answer = Some query
    /\ field (js "selection") query = Some (selectionOrEmpty selection)
    /\ field (js "effective_selection") query
       = Some (jsonOfSelection (effectiveSelection data))
    /\ field (js "preview_info") answer = Some info
    /\ field (js "is_preview") info = Some (JBool true)
    /\ field (js "original_selection") info = jsonOfSelection <$> selection
    /\ field (js "preview_selection") info
       = jsonOfSelection <$> previewSelection selection.
Proof.
  intros Hdata Hsd Hsummary. simpl. rewrite Hdata. simpl. rewrite Hsd.
  simpl. rewrite Hsummary. simpl.
  eexists _, _, _. split; [reflexivity|]. split.
  { unfold field. rewrite jget_jset_ne by discriminate. apply jget_jset_eq. }
  split.
  { unfold queryWith, field. rewrite !jget_jset_ne by discriminate.
    apply jget_jset_eq. }
  split; [apply queryWith_effective_selection|].
  split; [apply jget_jset_eq|].
  destruct selection as [sel|]; simpl; repeat split.
Qed.

Lemma handlePreviewData_sends_clamped_sample :
  summaryEvaluates sampleStructured = true
  /\ exists answer query info,
    run sampleClient
      (handlePreviewData (fun _ => js "TypeError") (js "TAB638") (Some top5)
         None)
    = (answer,
       [logged (getTableData (js "TAB638") (previewSelection (Some top5))
                  (language (validateLanguage None)));
        logged (transformToStructuredData sampleData
                  (previewSelection (Some top5)))])
    /\ field (js "query") answer = Some query
    /\ field (js "selection") query = Some (selectionOrEmpty (Some top5))
    /\ field (js "effective_selection") query
       = Some (jsonOfSelection (effectiveSelection sampleData))
    /\ field (js "preview_info") answer = Some info
    /\ field (js "is_preview") info = Some (JBool true)
    /\ field (js "original_selection") info
       = jsonOfSelection <$> Some top5
    /\ field (js "preview_selection") info
       = jsonOfSelection <$> previewSelection (Some top5).
Proof.
  split; [reflexivity|].
  exact (handlePreviewData_sends_clamped (fun _ => js "TypeError")
           sampleClient (js "TAB638") (Some top5) None sampleData
           sampleStructured eq_refl eq_refl eq_refl).
Defined.

(** When building the summary text raises an exception, the preview
    answers [preview_failed] with the exception's message, after the same
    two calls, and reports neither [query] nor [preview_info]. *)
Lemma handlePreviewData_summary_failure
    (templateError : StructuredData -> jsstring) (client : Client)
    (tableId : jsstring) (selection : option Selection)
    (lang : option jsstring) (data : Dataset)
    (structuredData : StructuredData) :
  client _ (getTableData tableId (previewSelection selection)
              (language (validateLanguage lang))) = Returned data ->
  client _ (transformToStructuredData data (previewSelection selection))
    = Returned structuredData ->
  summaryEvaluates structuredData = false ->
  exists answer e,
    run client (handlePreviewData templateError tableId selection lang)
    = (answer,
       [logged (getTableData tableId (previewSelection selection)
                  (language (validateLanguage lang)));
        logged (transformToStructuredData data
                  (previewSelection selection))])
    /\ field (js "error") answer = Some e
    /\ field (js "type") e = Some (JStr (js "preview_failed"))
    /\ field (js "message") e = Some (JStr (templateError structuredData))
    /\ field (js "query") answer = None
    /\ field (js "preview_info") answer = None.
Proof.
  intros Hdata Hsd Hsummary. simpl. rewrite Hdata. simpl. rewrite Hsd.
  simpl. rewrite Hsummary. simpl. eexists _, _. repeat split.
Qed.

(** The summary text needs [metadata], [summary.total_records] and an
    array [data] whose first five records are not [null]; a value with an
    own field [toString] cannot be printed. *)
Example summaryEvaluates_samples :
  summaryEvaluates sampleStructured = true
  /\ summaryEvaluates
       (mkStructuredData
          [(js "query", JObj [(js "table_id", JStr (js "TAB638"))]);
           (js "data", JArr [])]) = false
  /\ summaryEvaluates
       (mkStructuredData
          [(js "data", JArr [JNull]);
           (js "metadata", JObj []);
           (js "summary", JObj [(js "total_records", JNum 1)])]) = false
  /\ summaryEvaluates
       (mkStructuredData
          [(js "data", JArr [JObj [(js "Tid", JNull)]]);
           (js "metadata", JObj []);
           (js "summary", JObj [(js "total_records", JNum 1)])]) = true
  /\ summaryEvaluates
       (mkStructuredData
          [(js "data", JArr []);
           (js "metadata", JObj []);
           (js "summary", JObj [(js "total_records", JNull)])]) = false
  /\ summaryEvaluates
       (mkStructuredData
          [(js "data", JArr []);
           (js "metadata",
            JObj [(js "table_name", JObj [(js "toString", JNull)])]);
           (js "summary", JObj [(js "total_records", JNum 1)])]) = false.
Proof. repeat split; reflexivity. Qed.

(** X10: when the fetch throws, [handleGetTableData] makes no further call
    and answers an [error] object, without [query], that names the table
    and echoes the selection; its [type] and [message] are
    [data_fetch_failed] and the exception's message unless an upstream
    error body was read from that message, whose non-empty [type] is then
    reported. *)
Theorem handleGetTableData_fetch_failure
    (scbErrorOf : jsstring -> option ScbError) (client : Client)
    (tableId : jsstring) (selection : option Selection)
    (lang : option jsstring) (message : jsstring) :
  client _ (getTableData tableId selection
              (language (validateLanguage lang))) = Thrown message ->
  exists answer err,
    run client (handleGetTableData scbErrorOf tableId selection lang)
    = (answer,
       [logged (getTableData tableId selection
                  (language (validateLanguage lang)))])
    /\ field (js "error") answer = Some err
    /\ field (js "query") answer = None
    /\ field (js "table_id") err = Some (JStr tableId)
    /\ field (js "selection") err
       = Some (default JNull (jsonOfSelection <$> selection))
    /\ (scbErrorOf message = None ->
        field (js "type") err = Some (JStr (js "data_fetch_failed"))
        /\ field (js "message") err = Some (JStr message)
        /\ field (js "http_status") err = Some JNull)
    /\ (forall e c t, scbErrorOf message = Some e ->
        scb_type e = Some (c :: t) ->
        field (js "type") err = Some (JStr (c :: t))).
Proof.
  intros Hm. simpl. rewrite Hm. simpl.
  eexists _, _. split; [reflexivity|]. split; [reflexivity|].
  split; [reflexivity|]. split; [reflexivity|]. split.
  { by destruct selection. }
  split.
  - intros ->. repeat split.
  - intros e c t -> Ht. simpl. by rewrite Ht.
Qed.

Lemma handleGetTableData_fetch_failure_sample :
  exists answer err,
    run failingClient
      (handleGetTableData (fun _ => None) (js "TAB0") (Some top5) None)
    = (answer,
       [logged (getTableData (js "TAB0") (Some top5)
                  (language (validateLanguage None)))])
    /\ field (js "error") answer = Some err
    /\ field (js "query") answer = None
    /\ field (js "table_id") err = Some (JStr (js "TAB0"))
    /\ field (js "selection") err
       = Some (default JNull (jsonOfSelection <$> Some top5))
    /\ ((fun _ : jsstring => @None ScbError) (js "503 Service Unavailable")
        = None ->
        field (js "type") err = Some (JStr (js "data_fetch_failed"))
        /\ field (js "message") err
           = Some (JStr (js "503 Service Unavailable"))
        /\ field (js "http_status") err = Some JNull)
    /\ (forall e c t,
        (fun _ : jsstring => @None ScbError) (js "503 Service Unavailable")
        = Some e ->
        scb_type e = Some (c :: t) ->
        field (js "type") err = Some (JStr (c :: t))).
Proof.
  exact (handleGetTableData_fetch_failure (fun _ => None) failingClient
           (js "TAB0") (Some top5) None (js "503 Service Unavailable")
           eq_refl).
Defined.

(** ** Testing a selection, again *)

(** X11: testing a selection makes exactly one client call, whatever the
    client answers: the metadata of the table when the selection is empty
    or absent, the validation of the unchanged selection otherwise. No
    data is fetched. *)
Theorem handleTestSelection_single_call (client : Client)
    (tableId : jsstring) (selection : option Selection)
    (lang : option jsstring) :
  (run client (handleTestSelection tableId selection lang)).2
  = [if isEmptySelection selection
     then logged (getTableMetadata tableId
                    (language (validateLanguage lang)))
     else logged (validateSelection tableId (default ∅ selection)
                    (language (validateLanguage lang)))].
Proof.
  unfold handleTestSelection.
  destruct (isEmptySelection selection); simpl;
    by destruct (client _ _).
Qed.

(** X12: for a selection that is not empty, the answer reports what the
    client's validation found: [is_valid] is its verdict, [errors] and
    [suggestions] are its lists, and the selection is echoed; the answer
    has no [selection_provided] field. *)
Theorem handleTestSelection_reports_validation (client : Client)
    (tableId : jsstring) (sel : Selection) (lang : option jsstring)
    (validation : Validation) :
  sel <> ∅ ->
  client _ (validateSelection tableId sel
              (language (validateLanguage lang))) = Returned validation ->
  exists answer,
    (run client (handleTestSelection tableId (Some sel) lang)).1 = answer
    /\ field (js "is_valid") answer = Some (JBool (isValid validation))
    /\ field (js "errors") answer
       = Some (JArr (JStr <$> errors validation))
    /\ field (js "suggestions") answer
       = Some (JArr (JStr <$> suggestions validation))
    /\ field (js "selection") answer = Some (jsonOfSelection sel)
    /\ field (js "selection_provided") answer = None.
Proof.
  intros Hne Hv. unfold handleTestSelection.
  destruct (isEmptySelection (Some sel)) eqn:E.
  { apply isEmptySelection_true in E as [E|E]; [done | by injection E]. }
  simpl. rewrite Hv. simpl. eexists. repeat split.
Qed.

Lemma handleTestSelection_reports_validation_sample :
  top5 <> ∅
  /\ exists answer,
      (run rejectingClient
         (handleTestSelection (js "TAB638") (Some top5) None)).1 = answer
      /\ field (js "is_valid") answer = Some (JBool false)
      /\ field (js "errors") answer
         = Some (JArr (JStr <$> [js "Unknown variable"]))
      /\ field (js "suggestions") answer = Some (JArr (JStr <$> []))
      /\ field (js "selection") answer = Some (jsonOfSelection top5)
      /\ field (js "selection_provided") answer = None.
Proof.
  assert (H : top5 <> ∅).
  { unfold top5. apply insert_non_empty. }
  split; [exact H|].
  exact (handleTestSelection_reports_validation rejectingClient
           (js "TAB638") top5 None
           (mkValidation false None [js "Unknown variable"] []) H eq_refl).
Defined.

(** ** Region codes, again *)

Lemma jget_app (k : jsstring) (l1 l2 : list (jsstring * json)) :
  jget k (l1 ++ l2)
  = match jget k l1 with
    | Some v => Some v
    | None => jget k l2
    end.
Proof.
  induction l1 as [|[k' v] l1 IH]; [done|]. simpl.
  by destruct (jsEq k' k).
Qed.

Lemma countyField_only_county (ALL_REGIONS : list Region) (r : Region)
    (k : jsstring) :
  k <> js "county" -> jget k (countyField ALL_REGIONS r) = None.
Proof.
  intros Hk. unfold countyField.
  assert (E : jsEq (js "county") k = false).
  { destruct (jsEq (js "county") k) eqn:E; [|done].
    by apply jsEq_true in E. }
  destruct (truthy (countyCode r)); [destruct (List.find _ _)|];
    simpl; by rewrite ?E.
Qed.

Section FindRegionCodeBranches.

Variable ALL_REGIONS : list Region.
Variable REGION_STATS : RegionStats.
Variable searchRegions : jsstring -> list Region.
Variable normalizeForSearch : jsstring -> jsstring.

Let find :=
  handleFindRegionCode ALL_REGIONS REGION_STATS searchRegions
    normalizeForSearch.

Ltac primary_case :=
  simpl;
  first
    [ by intros [=]
    | intros [= <-]; eexists; split; [reflexivity|];
      split; [rewrite length_fmap, length_take; lia | reflexivity] ].

(** X13: whenever the answer of [handleFindRegionCode] names a primary
    match, that match is the first entry of [matches], [matches] holds at
    most ten entries, and the usage example selects the primary match's
    code. *)
Theorem handleFindRegionCode_primary_is_first (client : Client)
    (query : jsstring) (tableId lang : option jsstring) (primary : json) :
  field (js "primary_match") (run client (find query tableId lang)).1
  = Some primary ->
  exists others,
    field (js "matches") (run client (find query tableId lang)).1
    = Some (JArr (primary :: others))
    /\ (length others < 10)%nat
    /\ field (js "usage_example") (run client (find query tableId lang)).1
       = Some (JObj [(js "Region", JArr [codeOf primary])]).
Proof.
  unfold find, handleFindRegionCode.
  destruct (searchRegions query) as [|r0 l], (truthy tableId);
    simpl; try primary_case.
  - destruct (client _ _) as [metadata|m]; [|primary_case].
    destruct (dimension metadata ≫= _) as [rd|]; [|primary_case].
    destruct (List.filter _ _) as [|e tm]; primary_case.
  - destruct (client _ _) as [metadata|m]; [|primary_case].
    destruct (dimension metadata ≫= _) as [rd|]; [|primary_case].
    destruct (List.filter _ _) as [|e tm]; primary_case.
Qed.

(** X14: with a table id, [handleFindRegionCode] makes exactly one client
    call, for the metadata of that table, whatever the local database and
    the client answer. *)
Theorem handleFindRegionCode_one_call_with_table (client : Client)
    (query tableId : jsstring) (lang : option jsstring) :
  tableId <> [] ->
  (run client (find query (Some tableId) lang)).2
  = [logged (getTableMetadata tableId (language (validateLanguage lang)))].
Proof.
  intros Ht. destruct tableId as [|c t]; [done|].
  unfold find, handleFindRegionCode. rewrite andb_false_r. simpl.
  destruct (client _ _) as [metadata|m]; simpl.
  - destruct (dimension metadata ≫= _) as [rd|].
    + destruct (List.filter _ _) as [|e tm]; simpl;
        by destruct (searchRegions query).
    + by destruct (searchRegions query).
  - by destruct (searchRegions query).
Qed.

(** X15: when the metadata of the given table cannot be fetched and the
    local database has a match, the answer falls back on the local
    database: its source is [local_database], its match type
    [fallback_matches], its primary match the first local match. *)
Theorem handleFindRegionCode_falls_back (client : Client)
    (query tableId : jsstring) (lang : option jsstring)
    (message : jsstring) (r0 : Region) (others : list Region) :
  tableId <> [] ->
  client _ (getTableMetadata tableId (language (validateLanguage lang)))
    = Thrown message ->
  searchRegions query = r0 :: others ->
  exists answer,
    (run client (find query (Some tableId) lang)).1 = answer
    /\ field (js "source") answer = Some (JStr (js "local_database"))
    /\ field (js "match_type") answer = Some (JStr (js "fallback_matches"))
    /\ field (js "primary_match") answer
       = Some (localResult ALL_REGIONS false (js "fallback") r0)
    /\ field (js "error") answer = None.
Proof.
  intros Ht Hm Hs. destruct tableId as [|c t]; [done|].
  unfold find, handleFindRegionCode. rewrite andb_false_r. simpl.
  rewrite Hm, Hs. simpl. eexists. repeat split.
Qed.

(** X16: when the query is a code of the given table's Region dimension
    and that dimension carries labels, the answer is table specific: its
    match type is [table_specific_matches], it names the table under
    [source_table], has no [source] field, and its primary match is a
    [table_specific] entry, even if the local database has matches. *)
Theorem handleFindRegionCode_table_specific (client : Client)
    (query tableId : jsstring) (lang : option jsstring)
    (metadata : Dataset) (dims : gmap jsstring Dimension)
    (regionDimension : Dimension) (labels : gmap jsstring jsstring)
    (label : jsstring) :
  tableId <> [] ->
  client _ (getTableMetadata tableId (language (validateLanguage lang)))
    = Returned metadata ->
  dimension metadata = Some dims ->
  dims !! js "Region" = Some regionDimension ->
  cat_label (category regionDimension) = Some labels ->
  labels !! query = Some label ->
  exists answer primary,
    (run client (find query (Some tableId) lang)).1 = answer
    /\ field (js "match_type") answer
       = Some (JStr (js "table_specific_matches"))
    /\ field (js "source_table") answer
       = Some (sourceTable tableId metadata)
    /\ field (js "source") answer = None
    /\ field (js "primary_match") answer = Some primary
    /\ field (js "match_type") primary = Some (JStr (js "table_specific")).
Proof.
  intros Ht Hm Hd Hr Hl Hq. destruct tableId as [|c t]; [done|].
  unfold find, handleFindRegionCode. rewrite andb_false_r. simpl.
  rewrite Hm. simpl. rewrite Hd. simpl. rewrite Hr, Hl. simpl.
  match goal with |- context [List.filter ?f ?l] =>
    assert (Hin : In (query, label) (List.filter f l));
    [|destruct (List.filter f l) as [|e tm]; [done|]] end.
  { apply filter_In. split.
    - apply list_elem_of_In, elem_of_map_to_list. exact Hq.
    - simpl. rewrite (proj2 (jsEq_true query query)) by done.
      by rewrite orb_true_r. }
  simpl. eexists _, _. repeat split.
Qed.

(** X17: when neither the local database has a match nor a table id is
    given, the answer is made without any client call: an empty [matches]
    list, no primary match, and an [error] text that quotes the query. *)
Theorem handleFindRegionCode_nothing_found (client : Client)
    (query : jsstring) (tableId lang : option jsstring) :
  searchRegions query = [] ->
  truthy tableId = false ->
  exists answer,
    run client (find query tableId lang) = (answer, [])
    /\ field (js "matches") answer = Some (JArr [])
    /\ field (js "primary_match") answer = None
    /\ field (js "error") answer
       = Some (JStr (js "No regions found matching " ++ dq ++ query ++ dq)).
Proof.
  intros Hs Ht. unfold find, handleFindRegionCode. rewrite Hs, Ht. simpl.
  eexists. repeat split.
Qed.

End FindRegionCodeBranches.

Lemma handleFindRegionCode_primary_is_first_sample :
  let answer :=
    (run sampleClient
       (handleFindRegionCode sampleRegions (mkRegionStats 3 1 1)
          sampleSearchRegions normalizeSwedish (js "0180") None None)).1 in
  let primary := localResult sampleRegions true (js "exact") Stockholm in
  field (js "primary_match") answer = Some primary
  /\ exists others,
      field (js "matches") answer = Some (JArr (primary :: others))
      /\ (length others < 10)%nat
      /\ field (js "usage_example") answer
         = Some (JObj [(js "Region", JArr [codeOf primary])]).
Proof.
  intros answer primary.
  assert (H : field (js "primary_match") answer = Some primary)
    by reflexivity.
  split; [exact H|].
  exact (handleFindRegionCode_primary_is_first sampleRegions
           (mkRegionStats 3 1 1) sampleSearchRegions normalizeSwedish
           sampleClient (js "0180") None None primary H).
Defined.

Lemma handleFindRegionCode_one_call_with_table_sample :
  js "TAB638" <> []
  /\ (run failingClient
        (handleFindRegionCode sampleRegions (mkRegionStats 3 1 1)
           sampleSearchRegions normalizeSwedish (js "0180")
           (Some (js "TAB638")) None)).2
     = [logged (getTableMetadata (js "TAB638")
                  (language (validateLanguage None)))].
Proof.
  assert (H : js "TAB638" <> []) by discriminate.
  split; [exact H|].
  exact (handleFindRegionCode_one_call_with_table sampleRegions
           (mkRegionStats 3 1 1) sampleSearchRegions normalizeSwedish
           failingClient (js "0180") (js "TAB638") None H).
Defined.

Lemma handleFindRegionCode_falls_back_sample :
  js "TAB638" <> []
  /\ failingClient _
       (getTableMetadata (js "TAB638") (language (validateLanguage None)))
     = Thrown (js "503 Service Unavailable")
  /\ sampleSearchRegions (js "0180") = [Stockholm]
  /\ exists answer,
      (run failingClient
         (handleFindRegionCode sampleRegions (mkRegionStats 3 1 1)
            sampleSearchRegions normalizeSwedish (js "0180")
            (Some (js "TAB638")) None)).1 = answer
      /\ field (js "source") answer = Some (JStr (js "local_database"))
      /\ field (js "match_type") answer
         = Some (JStr (js "fallback_matches"))
      /\ field (js "primary_match") answer
         = Some (localResult sampleRegions false (js "fallback") Stockholm)
      /\ field (js "error") answer = None.
Proof.
  assert (H : js "TAB638" <> []) by discriminate.
  split; [exact H|]. split; [reflexivity|]. split; [reflexivity|].
  exact (handleFindRegionCode_falls_back sampleRegions
           (mkRegionStats 3 1 1) sampleSearchRegions normalizeSwedish
           failingClient (js "0180") (js "TAB638") None
           (js "503 Service Unavailable") Stockholm [] H eq_refl eq_refl).
Defined.

(** A table whose Region dimension labels the code 0180. *)
Definition regionLabels : gmap jsstring jsstring :=
  {[ js "0180" := js "Stockholm" ]}.

Definition regionDimensionOf0180 : Dimension :=
  mkDimension (js "region")
    (mkCategory {[ js "0180" := 0 ]} (Some regionLabels)).

Definition regionTable : Dataset :=
  mkDataset (js "Population by region")
    (Some {[ js "Region" := regionDimensionOf0180 ]}) [1].

Definition regionClient : Client :=
  fun X c =>
    match c in ApiCall X return Result X with
    | getTableMetadata _ _ => Returned regionTable
    | c' => failingClient _ c'
    end.

Lemma handleFindRegionCode_table_specific_sample :
  js "TAB638" <> []
  /\ regionLabels !! js "0180" = Some (js "Stockholm")
  /\ exists answer primary,
      (run regionClient
         (handleFindRegionCode sampleRegions (mkRegionStats 3 1 1)
            sampleSearchRegions normalizeSwedish (js "0180")
            (Some (js "TAB638")) None)).1 = answer
      /\ field (js "match_type") answer
         = Some (JStr (js "table_specific_matches"))
      /\ field (js "source_table") answer
         = Some (sourceTable (js "TAB638") regionTable)
      /\ field (js "source") answer = None
      /\ field (js "primary_match") answer = Some primary
      /\ field (js "match_type") primary
         = Some (JStr (js "table_specific")).
Proof.
  assert (H : js "TAB638" <> []) by discriminate.
  assert (Hl : regionLabels !! js "0180" = Some (js "Stockholm"))
    by apply lookup_singleton_eq.
  split; [exact H|]. split; [exact Hl|].
  exact (handleFindRegionCode_table_specific sampleRegions
           (mkRegionStats 3 1 1) sampleSearchRegions normalizeSwedish
           regionClient (js "0180") (js "TAB638") None regionTable
           {[ js "Region" := regionDimensionOf0180 ]} regionDimensionOf0180
           regionLabels (js "Stockholm") H eq_refl eq_refl
           (lookup_singleton_eq _ _) eq_refl Hl).
Defined.

Lemma handleFindRegionCode_nothing_found_sample :
  sampleSearchRegions (js "Atlantis") = []
  /\ truthy None = false
  /\ exists answer,
      run failingClient
        (handleFindRegionCode sampleRegions (mkRegionStats 3 1 1)
           sampleSearchRegions normalizeSwedish (js "Atlantis") None None)
      = (answer, [])
      /\ field (js "matches") answer = Some (JArr [])
      /\ field (js "primary_match") answer = None
      /\ field (js "error") answer
         = Some (JStr (js "No regions found matching " ++ dq
                       ++ js "Atlantis" ++ dq)).
Proof.
  split; [reflexivity|]. split; [reflexivity|].
  exact (handleFindRegionCode_nothing_found sampleRegions
           (mkRegionStats 3 1 1) sampleSearchRegions normalizeSwedish
           failingClient (js "Atlantis") None None eq_refl eq_refl).
Defined.

(** ** Searching regions *)

Section SearchRegions.

Variable ALL_REGIONS : list Region.
Variable REGION_STATS : RegionStats.
Variable searchRegions : jsstring -> list Region.

Let search := handleSearchRegions ALL_REGIONS REGION_STATS searchRegions.

Lemma regionEntry_fields (r : Region) :
  field (js "code") (regionEntry ALL_REGIONS r) = Some (JStr (code r))
  /\ field (js "name") (regionEntry ALL_REGIONS r) = Some (JStr (name r))
  /\ field (js "type") (regionEntry ALL_REGIONS r)
     = Some (JStr (regionTypeName (type r)))
  /\ field (js "usage_example") (regionEntry ALL_REGIONS r)
     = Some (JObj [(js "Region", JArr [JStr (code r)])])
  /\ field (js "county") (regionEntry ALL_REGIONS r)
     = jget (js "county") (countyField ALL_REGIONS r).
Proof.
  unfold regionEntry, field. repeat split; simpl.
  - by rewrite jget_app, countyField_only_county.
  - rewrite jget_app. by destruct (jget _ (countyField _ _)).
Qed.

(** X18: when the local database has matches, [handleSearchRegions] lists
    the first twenty of them, in the database's order and each with a
    usage example selecting its code, while [total_matches] counts them
    all. *)
Theorem handleSearchRegions_lists_first_twenty (query : jsstring)
    (lang : option jsstring) :
  searchRegions query <> [] ->
  exists entries,
    field (js "regions") (search query lang) = Some (JArr entries)
    /\ length entries = min 20 (length (searchRegions query))
    /\ field (js "total_matches") (search query lang)
       = Some (JNat (length (searchRegions query)))
    /\ field (js "source") (search query lang)
       = Some (JStr (js "local_database"))
    /\ forall i r,
         (i < 20)%nat -> searchRegions query !! i = Some r ->
         exists entry,
           entries !! i = Some entry
           /\ field (js "code") entry = Some (JStr (code r))
           /\ field (js "name") entry = Some (JStr (name r))
           /\ field (js "usage_example") entry
              = Some (JObj [(js "Region", JArr [JStr (code r)])]).
Proof.
  intros Hne. unfold search, handleSearchRegions.
  destruct (searchRegions query) as [|r0 l] eqn:E; [done|].
  cbn [nonEmpty negb]. cbv zeta. rewrite <- E.
  exists (regionEntry ALL_REGIONS <$> take 20 (searchRegions query)).
  split; [reflexivity|]. split.
  { by rewrite length_fmap, length_take. }
  split; [reflexivity|]. split; [reflexivity|].
  intros i r Hi Hr. exists (regionEntry ALL_REGIONS r).
  split.
  - by rewrite list_lookup_fmap, lookup_take_lt, Hr.
  - destruct (regionEntry_fields r) as (Hc & Hn & _ & Hu & _). done.
Qed.

(** X19: when the local database has no match, the answer has an empty
    [matches] list and no [regions]; it offers at most five sample
    counties and at most five sample municipalities, each taken from the
    database and of the stated type. *)
Theorem handleSearchRegions_no_match (query : jsstring)
    (lang : option jsstring) :
  searchRegions query = [] ->
  exists sampleCounties sampleMunicipalities,
    field (js "matches") (search query lang) = Some (JArr [])
    /\ field (js "regions") (search query lang) = None
    /\ field (js "sample_counties") (search query lang)
       = Some (JArr (codeAndName <$> sampleCounties))
    /\ field (js "sample_municipalities") (search query lang)
       = Some (JArr (codeAndName <$> sampleMunicipalities))
    /\ (length sampleCounties <= 5)%nat
    /\ (length sampleMunicipalities <= 5)%nat
    /\ (forall r, r ∈ sampleCounties -> r ∈ ALL_REGIONS /\ type r = county)
    /\ (forall r, r ∈ sampleMunicipalities ->
        r ∈ ALL_REGIONS /\ type r = municipality).
Proof.
  intros E. unfold search, handleSearchRegions. rewrite E.
  cbn [nonEmpty negb]. cbv zeta.
  eexists _, _. split; [reflexivity|]. split; [reflexivity|].
  split; [reflexivity|]. split; [reflexivity|].
  split; [rewrite length_take; lia|]. split; [rewrite length_take; lia|].
  split; intros r Hr%subseteq_take%list_elem_of_In%filter_In;
    destruct Hr as [Hin Ht]; (split; [by apply list_elem_of_In|]);
    unfold isOfType in Ht; by destruct (type r).
Qed.

(** X20: the two region tools agree: the first region listed by
    [handleSearchRegions] and the primary match of [handleFindRegionCode],
    asked without a table id, carry the same code, name, type and
    county. *)
Theorem search_and_find_agree (normalizeForSearch : jsstring -> jsstring)
    (client : Client) (query : jsstring) (lang : option jsstring) :
  searchRegions query <> [] ->
  exists entry others primary,
    field (js "regions") (search query lang) = Some (JArr (entry :: others))
    /\ field (js "primary_match")
         (run client
            (handleFindRegionCode ALL_REGIONS REGION_STATS searchRegions
               normalizeForSearch query None lang)).1
       = Some primary
    /\ field (js "code") entry = field (js "code") primary
    /\ field (js "name") entry = field (js "name") primary
    /\ field (js "type") entry = field (js "type") primary
    /\ field (js "county") entry = field (js "county") primary.
Proof.
  intros Hne. unfold search, handleSearchRegions, handleFindRegionCode.
  destruct (searchRegions query) as [|r0 l]; [done|]. simpl.
  eexists _, _, _. split; [reflexivity|]. split; [reflexivity|].
  repeat split.
  unfold field. simpl. rewrite !jget_app.
  by destruct (jget _ (countyField _ _)).
Qed.

End SearchRegions.

Lemma handleSearchRegions_lists_first_twenty_sample :
  sampleSearchRegions (js "stock") <> []
  /\ exists entries,
      field (js "regions")
        (handleSearchRegions sampleRegions (mkRegionStats 3 1 1)
           sampleSearchRegions (js "stock") None)
      = Some (JArr entries)
      /\ length entries = min 20 (length (sampleSearchRegions (js "stock")))
      /\ field (js "total_matches")
           (handleSearchRegions sampleRegions (mkRegionStats 3 1 1)
              sampleSearchRegions (js "stock") None)
         = Some (JNat (length (sampleSearchRegions (js "stock"))))
      /\ field (js "source")
           (handleSearchRegions sampleRegions (mkRegionStats 3 1 1)
              sampleSearchRegions (js "stock") None)
         = Some (JStr (js "local_database"))
      /\ forall i r,
           (i < 20)%nat -> sampleSearchRegions (js "stock") !! i = Some r ->
           exists entry,
             entries !! i = Some entry
             /\ field (js "code") entry = Some (JStr (code r))
             /\ field (js "name") entry = Some (JStr (name r))
             /\ field (js "usage_example") entry
                = Some (JObj [(js "Region", JArr [JStr (code r)])]).
Proof.
  assert (H : sampleSearchRegions (js "stock") <> []) by discriminate.
  split; [exact H|].
  exact (handleSearchRegions_lists_first_twenty sampleRegions
           (mkRegionStats 3 1 1) sampleSearchRegions (js "stock") None H).
Defined.

Lemma handleSearchRegions_no_match_sample :
  sampleSearchRegions (js "Atlantis") = []
  /\ exists sampleCounties sampleMunicipalities,
      field (js "matches")
        (handleSearchRegions sampleRegions (mkRegionStats 3 1 1)
           sampleSearchRegions (js "Atlantis") None)
      = Some (JArr [])
      /\ field (js "regions")
           (handleSearchRegions sampleRegions (mkRegionStats 3 1 1)
              sampleSearchRegions (js "Atlantis") None)
         = None
      /\ field (js "sample_counties")
           (handleSearchRegions sampleRegions (mkRegionStats 3 1 1)
              sampleSearchRegions (js "Atlantis") None)
         = Some (JArr (codeAndName <$> sampleCounties))
      /\ field (js "sample_municipalities")
           (handleSearchRegions sampleRegions (mkRegionStats 3 1 1)
              sampleSearchRegions (js "Atlantis") None)
         = Some (JArr (codeAndName <$> sampleMunicipalities))
      /\ (length sampleCounties <= 5)%nat
      /\ (length sampleMunicipalities <= 5)%nat
      /\ (forall r, r ∈ sampleCounties ->
          r ∈ sampleRegions /\ type r = county)
      /\ (forall r, r ∈ sampleMunicipalities ->
          r ∈ sampleRegions /\ type r = municipality).
Proof.
  split; [reflexivity|].
  exact (handleSearchRegions_no_match sampleRegions (mkRegionStats 3 1 1)
           sampleSearchRegions (js "Atlantis") None eq_refl).
Defined.

Lemma search_and_find_agree_sample :
  sampleSearchRegions (js "stock") <> []
  /\ exists entry others primary,
      field (js "regions")
        (handleSearchRegions sampleRegions (mkRegionStats 3 1 1)
           sampleSearchRegions (js "stock") None)
      = Some (JArr (entry :: others))
      /\ field (js "primary_match")
           (run failingClient
              (handleFindRegionCode sampleRegions (mkRegionStats 3 1 1)
                 sampleSearchRegions normalizeSwedish (js "stock")
                 None None)).1
         = Some primary
      /\ field (js "code") entry = field (js "code") primary
      /\ field (js "name") entry = field (js "name") primary
      /\ field (js "type") entry = field (js "type") primary
      /\ field (js "county") entry = field (js "county") primary.
Proof.
  assert (H : sampleSearchRegions (js "stock") <> []) by discriminate.
  split; [exact H|].
  exact (search_and_find_agree sampleRegions (mkRegionStats 3 1 1)
           sampleSearchRegions normalizeSwedish failingClient (js "stock")
           None H).
Defined.

(** ** Table variables and table information *)

Lemma codes_length (dimDef : Dimension) :
  length (codes dimDef) = size (cat_index (category dimDef)).
Proof. unfold codes. by rewrite length_fmap, length_map_to_list. Qed.

Lemma variableEntry_code (varCode : jsstring) (varDef : Dimension) :
  field (js "variable_code") (variableEntry varCode varDef)
  = Some (JStr varCode).
Proof. reflexivity. Qed.

(** X21: without a variable name (absent or empty), every variable of a
    table that has some is returned: the answer has no [error], lists one
    entry per dimension, and reports the same number as total and as
    filtered. *)
Theorem handleGetTableVariables_all (client : Client) (tableId : jsstring)
    (lang variableName : option jsstring) (metadata : Dataset)
    (dims : gmap jsstring Dimension) :
  truthy variableName = false ->
  client _ (getTableMetadata tableId (language (validateLanguage lang)))
    = Returned metadata ->
  dimension metadata = Some dims ->
  dims <> ∅ ->
  exists answer entries counts,
    (run client (handleGetTableVariables tableId lang variableName)).1
    = answer
    /\ field (js "error") answer = None
    /\ field (js "variables") answer = Some (JArr entries)
    /\ length entries = size dims
    /\ (forall varCode varDef, dims !! varCode = Some varDef ->
        variableEntry varCode varDef ∈ entries)
    /\ field (js "metadata") answer = Some counts
    /\ field (js "total_variables") counts = Some (JNat (size dims))
    /\ field (js "filtered_variables") counts = Some (JNat (size dims)).
Proof.
  intros Hv Hm Hd Hne. simpl. rewrite Hm. simpl. rewrite Hd, Hv.
  destruct (map_to_list dims) as [|e l] eqn:E.
  { by apply map_to_list_empty_iff in E. }
  cbn [nonEmpty negb]. rewrite <- E. simpl.
  eexists _, _, _. split; [reflexivity|]. split; [reflexivity|].
  split; [reflexivity|]. split.
  { by rewrite length_fmap, length_map_to_list. }
  split.
  { intros varCode varDef Hl.
    apply (list_elem_of_fmap_2 (fun e => variableEntry e.1 e.2) _
             (varCode, varDef)).
    by apply elem_of_map_to_list. }
  split; [reflexivity|].
  by rewrite !length_map_to_list.
Qed.

Lemma handleGetTableVariables_all_sample :
  truthy None = false
  /\ ({[ js "Tid" :=
           mkDimension (js "year")
             (mkCategory {[ js "2023" := 0; js "2024" := 1 ]} None) ]}
      : gmap jsstring Dimension) <> ∅
  /\ exists answer entries counts,
      (run sampleClient
         (handleGetTableVariables (js "TAB638") None None)).1 = answer
      /\ field (js "error") answer = None
      /\ field (js "variables") answer = Some (JArr entries)
      /\ length entries
         = size ({[ js "Tid" :=
                      mkDimension (js "year")
                        (mkCategory {[ js "2023" := 0; js "2024" := 1 ]}
                           None) ]} : gmap jsstring Dimension)
      /\ (forall varCode varDef,
          ({[ js "Tid" :=
                mkDimension (js "year")
                  (mkCategory {[ js "2023" := 0; js "2024" := 1 ]} None) ]}
           : gmap jsstring Dimension) !! varCode = Some varDef ->
          variableEntry varCode varDef ∈ entries)
      /\ field (js "metadata") answer = Some counts
      /\ field (js "total_variables") counts
         = Some (JNat (size ({[ js "Tid" :=
                      mkDimension (js "year")
                        (mkCategory {[ js "2023" := 0; js "2024" := 1 ]}
                           None) ]} : gmap jsstring Dimension)))
      /\ field (js "filtered_variables") counts
         = Some (JNat (size ({[ js "Tid" :=
                      mkDimension (js "year")
                        (mkCategory {[ js "2023" := 0; js "2024" := 1 ]}
                           None) ]} : gmap jsstring Dimension))).
Proof.
  assert (H : ({[ js "Tid" :=
                    mkDimension (js "year")
                      (mkCategory {[ js "2023" := 0; js "2024" := 1 ]}
                         None) ]} : gmap jsstring Dimension) <> ∅)
    by apply insert_non_empty.
  split; [reflexivity|]. split; [exact H|].
  exact (handleGetTableVariables_all sampleClient (js "TAB638") None None
           sampleData _ eq_refl eq_refl eq_refl H).
Defined.

(** A client whose tables have no dimension at all, and one whose data
    sets leave [dimension] out. *)
Definition emptyTableClient : Client :=
  fun X c =>
    match c in ApiCall X return Result X with
    | getTableMetadata _ _ => Returned (mkDataset (js "Empty") (Some ∅) [])
    | c' => failingClient _ c'
    end.

Definition noDimensionClient : Client :=
  fun X c =>
    match c in ApiCall X return Result X with
    | getTableMetadata _ _ => Returned (mkDataset (js "Bare") None [])
    | c' => failingClient _ c'
    end.

(** X22: for a table whose dimension object is empty, asking for the
    variables without naming one is answered with an error that reads
    [Variable "undefined" not found] and an empty list of available
    variables. *)
Theorem handleGetTableVariables_empty_table (client : Client)
    (tableId : jsstring) (lang : option jsstring) (metadata : Dataset) :
  client _ (getTableMetadata tableId (language (validateLanguage lang)))
    = Returned metadata ->
  dimension metadata = Some ∅ ->
  exists answer,
    (run client (handleGetTableVariables tableId lang None)).1 = answer
    /\ field (js "error") answer
       = Some (JStr (js "Variable " ++ dq ++ js "undefined" ++ dq
                     ++ js " not found"))
    /\ field (js "available_variables") answer = Some (JArr [])
    /\ field (js "variables") answer = None.
Proof.
  intros Hm Hd. simpl. rewrite Hm. simpl. rewrite Hd.
  rewrite map_to_list_empty. simpl. eexists. repeat split.
Qed.

Lemma handleGetTableVariables_empty_table_sample :
  exists answer,
    (run emptyTableClient
       (handleGetTableVariables (js "TAB0") None None)).1 = answer
    /\ field (js "error") answer
       = Some (JStr (js "Variable " ++ dq ++ js "undefined" ++ dq
                     ++ js " not found"))
    /\ field (js "available_variables") answer = Some (JArr [])
    /\ field (js "variables") answer = None.
Proof.
  exact (handleGetTableVariables_empty_table emptyTableClient (js "TAB0")
           None (mkDataset (js "Empty") (Some ∅) []) eq_refl eq_refl).
Defined.

(** X23: a variable name that equals a variable's code up to letter case
    finds that variable: the answer has no [error] and its entries, all
    of them variables of the table that pass the filter, include the
    variable. *)
Theorem handleGetTableVariables_by_code (client : Client)
    (tableId : jsstring) (lang : option jsstring) (name : jsstring)
    (metadata : Dataset) (dims : gmap jsstring Dimension)
    (varCode : jsstring) (varDef : Dimension) :
  name <> [] ->
  client _ (getTableMetadata tableId (language (validateLanguage lang)))
    = Returned metadata ->
  dimension metadata = Some dims ->
  dims !! varCode = Some varDef ->
  toLowerCase varCode = toLowerCase name ->
  exists answer found,
    (run client (handleGetTableVariables tableId lang (Some name))).1
    = answer
    /\ field (js "error") answer = None
    /\ field (js "variables") answer
       = Some (JArr ((fun e => variableEntry e.1 e.2) <$> found))
    /\ (varCode, varDef) ∈ found
    /\ forall e, e ∈ found ->
         dims !! e.1 = Some e.2 /\ variableMatches name e = true.
Proof.
  intros Hn Hm Hd Hl Hc. destruct name as [|c0 n0]; [done|].
  simpl. rewrite Hm. simpl. rewrite Hd. simpl.
  set (found := List.filter (variableMatches (c0 :: n0)) (map_to_list dims)).
  assert (Hin : In (varCode, varDef) found).
  { apply filter_In. split.
    - by apply list_elem_of_In, elem_of_map_to_list.
    - unfold variableMatches. simpl fst.
      by rewrite (proj2 (jsEq_true _ _) Hc). }
  assert (Hne : nonEmpty found = true) by by destruct found.
  rewrite Hne. simpl.
  eexists _, found. split; [reflexivity|]. split; [reflexivity|].
  split; [reflexivity|]. split; [by apply list_elem_of_In|].
  intros e [He Hf]%list_elem_of_In%filter_In. split; [|done].
  apply elem_of_map_to_list. apply list_elem_of_In in He. by destruct e.
Qed.

Definition yearDimension : Dimension :=
  mkDimension (js "year")
    (mkCategory {[ js "2023" := 0; js "2024" := 1 ]} None).

Lemma handleGetTableVariables_by_code_sample :
  js "TID" <> []
  /\ ({[ js "Tid" := yearDimension ]} : gmap jsstring Dimension) !! js "Tid"
     = Some yearDimension
  /\ toLowerCase (js "Tid") = toLowerCase (js "TID")
  /\ exists answer found,
      (run sampleClient
         (handleGetTableVariables (js "TAB638") None (Some (js "TID")))).1
      = answer
      /\ field (js "error") answer = None
      /\ field (js "variables") answer
         = Some (JArr ((fun e => variableEntry e.1 e.2) <$> found))
      /\ (js "Tid", yearDimension) ∈ found
      /\ forall e, e ∈ found ->
           ({[ js "Tid" := yearDimension ]} : gmap jsstring Dimension) !! e.1
           = Some e.2
           /\ variableMatches (js "TID") e = true.
Proof.
  assert (H : js "TID" <> []) by discriminate.
  assert (Hl : ({[ js "Tid" := yearDimension ]} : gmap jsstring Dimension)
               !! js "Tid" = Some yearDimension)
    by apply lookup_singleton_eq.
  split; [exact H|]. split; [exact Hl|]. split; [reflexivity|].
  exact (handleGetTableVariables_by_code sampleClient (js "TAB638") None
           (js "TID") sampleData _ (js "Tid") yearDimension H eq_refl
           eq_refl Hl eq_refl).
Defined.

(** X24: a variable name that matches no variable of the table, neither
    its code up to letter case nor a part of its label, is answered with
    an error that quotes the name and lists every variable of the table
    as available. *)
Theorem handleGetTableVariables_not_found (client : Client)
    (tableId : jsstring) (lang : option jsstring) (name : jsstring)
    (metadata : Dataset) (dims : gmap jsstring Dimension) :
  name <> [] ->
  client _ (getTableMetadata tableId (language (validateLanguage lang)))
    = Returned metadata ->
  dimension metadata = Some dims ->
  (forall varCode varDef, dims !! varCode = Some varDef ->
   variableMatches name (varCode, varDef) = false) ->
  exists answer available,
    (run client (handleGetTableVariables tableId lang (Some name))).1
    = answer
    /\ field (js "error") answer
       = Some (JStr (js "Variable " ++ dq ++ name ++ dq ++ js " not found"))
    /\ field (js "variables") answer = None
    /\ field (js "available_variables") answer = Some (JArr available)
    /\ length available = size dims
    /\ forall varCode varDef, dims !! varCode = Some varDef ->
         JObj [(js "code", JStr varCode);
               (js "label", JStr (dim_label varDef))] ∈ available.
Proof.
  intros Hn Hm Hd Hnone. destruct name as [|c0 n0]; [done|].
  simpl. rewrite Hm. simpl. rewrite Hd. simpl.
  assert (E : List.filter (variableMatches (c0 :: n0)) (map_to_list dims)
              = []).
  { destruct (List.filter _ _) as [|[vc vd] l] eqn:E; [done|].
    assert (Hin : In (vc, vd)
                    (List.filter (variableMatches (c0 :: n0))
                       (map_to_list dims)))
      by (rewrite E; by left).
    apply filter_In in Hin as [Hin Hf].
    apply list_elem_of_In, elem_of_map_to_list in Hin.
    by rewrite (Hnone vc vd Hin) in Hf. }
  rewrite E. simpl.
  eexists _, _. split; [reflexivity|]. split; [reflexivity|].
  split; [reflexivity|]. split; [reflexivity|]. split.
  { by rewrite length_fmap, length_map_to_list. }
  intros varCode varDef Hl.
  apply (list_elem_of_fmap_2
           (fun e : jsstring * Dimension =>
              JObj [(js "code", JStr e.1);
                    (js "label", JStr (dim_label e.2))])
           _ (varCode, varDef)).
  by apply elem_of_map_to_list.
Qed.

Lemma handleGetTableVariables_not_found_sample :
  js "Region" <> []
  /\ (forall varCode varDef,
      ({[ js "Tid" := yearDimension ]} : gmap jsstring Dimension) !! varCode
      = Some varDef ->
      variableMatches (js "Region") (varCode, varDef) = false)
  /\ exists answer available,
      (run sampleClient
         (handleGetTableVariables (js "TAB638") None
            (Some (js "Region")))).1 = answer
      /\ field (js "error") answer
         = Some (JStr (js "Variable " ++ dq ++ js "Region" ++ dq
                       ++ js " not found"))
      /\ field (js "variables") answer = None
      /\ field (js "available_variables") answer = Some (JArr available)
      /\ length available
         = size ({[ js "Tid" := yearDimension ]} : gmap jsstring Dimension)
      /\ forall varCode varDef,
           ({[ js "Tid" := yearDimension ]} : gmap jsstring Dimension)
           !! varCode = Some varDef ->
           JObj [(js "code", JStr varCode);
                 (js "label", JStr (dim_label varDef))] ∈ available.
Proof.
  assert (H : js "Region" <> []) by discriminate.
  assert (Hnone : forall varCode varDef,
            ({[ js "Tid" := yearDimension ]} : gmap jsstring Dimension)
            !! varCode = Some varDef ->
            variableMatches (js "Region") (varCode, varDef) = false).
  { intros varCode varDef [<- <-]%lookup_singleton_Some. reflexivity. }
  split; [exact H|]. split; [exact Hnone|].
  exact (handleGetTableVariables_not_found sampleClient (js "TAB638") None
           (js "Region") sampleData _ H eq_refl eq_refl Hnone).
Defined.

(** X25: an entry of [variables] counts all values of the variable, shows
    at most ten of them and says whether there are more. A shown value
    whose code is not a name inherited from [Object.prototype] carries
    its code, its label and its index, the label being the table's own
    label when that is not empty and the code itself otherwise; a shown
    value without own label whose code names an inherited function
    carries no label. *)
Theorem variableEntry_samples (varCode : jsstring) (varDef : Dimension) :
  exists samples,
    field (js "sample_values") (variableEntry varCode varDef)
    = Some (JArr samples)
    /\ length samples = min 10 (size (cat_index (category varDef)))
    /\ field (js "total_values") (variableEntry varCode varDef)
       = Some (JNat (size (cat_index (category varDef))))
    /\ field (js "has_more") (variableEntry varCode varDef)
       = Some (JBool
                 (bool_decide (10 < size (cat_index (category varDef)))%nat))
    /\ forall i valueCode index,
         (i < 10)%nat ->
         map_to_list (cat_index (category varDef)) !! i
         = Some (valueCode, index) ->
         (valueCode ∉ inheritedFunctionNames ->
          valueCode <> js "__proto__" ->
          samples !! i
          = Some (JObj
                    [(js "code", JStr valueCode);
                     (js "label",
                      JStr match default ∅ (cat_label (category varDef))
                                 !! valueCode with
                           | Some (c :: l) => c :: l
                           | _ => valueCode
                           end);
                     (js "index", JN index)]))
         /\ (valueCode ∈ inheritedFunctionNames ->
             default ∅ (cat_label (category varDef)) !! valueCode = None ->
             samples !! i
             = Some (JObj [(js "code", JStr valueCode);
                           (js "index", JN index)])).
Proof.
  eexists. split; [reflexivity|]. split.
  { by rewrite length_take, length_fmap, length_map_to_list. }
  split; [unfold variableEntry, field; simpl;
          by rewrite length_map_to_list|].
  split; [unfold variableEntry, field; simpl;
          by rewrite length_map_to_list|].
  intros i valueCode index Hi Hl.
  rewrite lookup_take_lt, list_lookup_fmap, Hl by done. simpl.
  unfold labelField. split.
  - intros Hni Hnp.
    destruct (default ∅ (cat_label (category varDef)) !! valueCode)
      as [[|c l]|]; [done|done|].
    rewrite bool_decide_eq_false_2 by done.
    destruct (jsEq valueCode (js "__proto__")) eqn:E; [|done].
    by apply jsEq_true in E.
  - intros Hin ->. by rewrite bool_decide_eq_true_2.
Qed.

Lemma roundToDouble_exact (x : N) :
  x < 2 ^ 53 -> roundToDouble x = Finite x.
Proof.
  intros H. unfold roundToDouble.
  by destruct (N.ltb_spec x (2 ^ 53)); [|lia].
Qed.

Lemma product_positive (l : list N) :
  Forall (fun n => 0 < n) l -> 0 < foldr N.mul 1 l.
Proof. induction 1; simpl; lia. Qed.

(** Below 2^53 the product of doubles is the product of the integers. *)
Lemma product_of_doubles (a : N) (l : list N) :
  0 < a ->
  Forall (fun n => 0 < n) l ->
  a * foldr N.mul 1 l < 2 ^ 53 ->
  foldl (fun a b => mulDouble a (roundToDouble b)) (Finite a) l
  = Finite (a * foldr N.mul 1 l).
Proof.
  revert a. induction l as [|x l IH]; intros a Ha Hl Hb;
    cbn [foldl foldr] in *.
  - f_equal. lia.
  - apply Forall_cons in Hl as [Hx Hl].
    pose proof (product_positive l Hl) as Hp.
    assert (Hx53 : x < 2 ^ 53) by nia.
    assert (Hax53 : a * x < 2 ^ 53) by nia.
    rewrite (roundToDouble_exact x Hx53).
    change (mulDouble (Finite a) (Finite x)) with (roundToDouble (a * x)).
    rewrite (roundToDouble_exact (a * x) Hax53).
    rewrite IH; [f_equal; lia | lia | done | nia].
Qed.

(** Above 2^53 the product is rounded: here the product of the integers
    is odd, the product of the doubles is its even neighbour. *)
Example totalCells_rounds :
  totalCells (mkDataset [] None [94906267; 94906267])
  = Finite 9007199515875288
  /\ 94906267 * 94906267 = 9007199515875289.
Proof. split; vm_compute; reflexivity. Qed.

Section TableInfoFacts.

Variable scbErrorOf : jsstring -> option ScbError.
Variable entriesTypeError : jsstring.

Let info := handleGetTableInfo scbErrorOf entriesTypeError.

(** X26: when the metadata is fetched and has dimensions,
    [handleGetTableInfo] answers without [error]: one entry per dimension,
    each with the dimension's code, label and number of value codes, and,
    when the sizes of the table are positive and their product is below
    2^53, that product under [dataset_info.total_cells]. *)
Theorem handleGetTableInfo_variables (client : Client) (tableId : jsstring)
    (lang : option jsstring) (metadata : Dataset)
    (dims : gmap jsstring Dimension) :
  client _ (getTableMetadata tableId (language (validateLanguage lang)))
    = Returned metadata ->
  dimension metadata = Some dims ->
  Forall (fun n => 0 < n) (ds_size metadata) ->
  foldr N.mul 1 (ds_size metadata) < 2 ^ 53 ->
  exists answer entries datasetInfo,
    run client (info tableId lang)
    = (answer,
       [logged (getTableMetadata tableId
                  (language (validateLanguage lang)))])
    /\ field (js "error") answer = None
    /\ field (js "table_name") answer = Some (JStr (ds_label metadata))
    /\ field (js "variables") answer = Some (JArr entries)
    /\ length entries = size dims
    /\ (forall varCode varDef, dims !! varCode = Some varDef ->
        JObj [(js "code", JStr varCode);
              (js "label", JStr (dim_label varDef));
              (js "value_count",
               JNat (size (cat_index (category varDef))))] ∈ entries)
    /\ field (js "dataset_info") answer = Some datasetInfo
    /\ field (js "total_cells") datasetInfo
       = Some (JN (foldr N.mul 1 (ds_size metadata))).
Proof.
  intros Hm Hd Hpos Hbound. unfold info. simpl. rewrite Hm. simpl.
  rewrite Hd. simpl.
  eexists _, _, _. split; [reflexivity|]. split; [reflexivity|].
  split; [reflexivity|]. split; [reflexivity|]. split.
  { by rewrite length_fmap, length_map_to_list. }
  split.
  { intros varCode varDef Hl. rewrite <- codes_length.
    apply (list_elem_of_fmap_2
             (fun e : jsstring * Dimension =>
                JObj [(js "code", JStr e.1);
                      (js "label", JStr (dim_label e.2));
                      (js "value_count", JNat (length (codes e.2)))])
             _ (varCode, varDef)).
    by apply elem_of_map_to_list. }
  split; [reflexivity|].
  simpl. unfold totalCells.
  rewrite product_of_doubles by (done || lia). simpl. do 3 f_equal. lia.
Qed.

(** X27: when the metadata cannot be fetched, the three handlers that
    start from it answer an [error] object after that single call, and
    never an answer about the table: [table_info_failed] (when no
    upstream body is read from the message), [table_variables_failed]
    and, for an absent selection, [table_not_found], each with the
    exception's message. *)
Theorem metadata_failure_is_reported (client : Client) (tableId : jsstring)
    (lang variableName : option jsstring) (message : jsstring) :
  client _ (getTableMetadata tableId (language (validateLanguage lang)))
    = Thrown message ->
  scbErrorOf message = None ->
  let call :=
    logged (getTableMetadata tableId (language (validateLanguage lang))) in
  exists infoAnswer variablesAnswer testAnswer e1 e2 e3,
    run client (info tableId lang) = (infoAnswer, [call])
    /\ run client (handleGetTableVariables tableId lang variableName)
       = (variablesAnswer, [call])
    /\ run client (handleTestSelection tableId None lang)
       = (testAnswer, [call])
    /\ field (js "error") infoAnswer = Some e1
    /\ field (js "type") e1 = Some (JStr (js "table_info_failed"))
    /\ field (js "message") e1 = Some (JStr message)
    /\ field (js "error") variablesAnswer = Some e2
    /\ field (js "type") e2 = Some (JStr (js "table_variables_failed"))
    /\ field (js "message") e2 = Some (JStr message)
    /\ field (js "error") testAnswer = Some e3
    /\ field (js "type") e3 = Some (JStr (js "table_not_found"))
    /\ field (js "message") e3
       = Some (JStr (js "Could not validate table " ++ dq ++ tableId ++ dq
                     ++ js ": " ++ message))
    /\ field (js "variables") infoAnswer = None
    /\ field (js "variables") variablesAnswer = None
    /\ field (js "is_valid") testAnswer = None.
Proof.
  intros Hm Hs call. unfold info. simpl. rewrite Hm. simpl.
  unfold tableInfoFailed. rewrite Hs.
  eexists _, _, _, _, _, _. repeat split.
Qed.

(** X28: when the metadata arrives without [dimension], the three
    handlers differ: [handleGetTableInfo] answers the error
    [table_info_failed] with the message of the type error (when no
    upstream body is read from it), [handleGetTableVariables] answers
    that no variable information is available, and [handleTestSelection]
    with an absent selection answers [is_valid: true] with no available
    variable. *)
Theorem metadata_without_dimension (client : Client) (tableId : jsstring)
    (lang variableName : option jsstring) (metadata : Dataset) :
  client _ (getTableMetadata tableId (language (validateLanguage lang)))
    = Returned metadata ->
  dimension metadata = None ->
  scbErrorOf entriesTypeError = None ->
  exists e1,
    field (js "error") (run client (info tableId lang)).1 = Some e1
    /\ field (js "type") e1 = Some (JStr (js "table_info_failed"))
    /\ field (js "message") e1 = Some (JStr entriesTypeError)
    /\ field (js "error")
         (run client
            (handleGetTableVariables tableId lang variableName)).1
       = Some (JStr (js "No variable information available for this table"))
    /\ field (js "is_valid")
         (run client (handleTestSelection tableId None lang)).1
       = Some (JBool true)
    /\ field (js "available_variables")
         (run client (handleTestSelection tableId None lang)).1
       = Some (JArr []).
Proof.
  intros Hm Hd Hs. unfold info. simpl. rewrite Hm. simpl. rewrite Hd.
  simpl. unfold tableInfoFailed. rewrite Hs, map_to_list_empty.
  eexists. repeat split.
Qed.

End TableInfoFacts.

Lemma handleGetTableInfo_variables_sample :
  Forall (fun n => 0 < n) (ds_size sampleData)
  /\ foldr N.mul 1 (ds_size sampleData) < 2 ^ 53
  /\ exists answer entries datasetInfo,
    run sampleClient
      (handleGetTableInfo (fun _ => None) (js "TypeError") (js "TAB638")
         None)
    = (answer,
       [logged (getTableMetadata (js "TAB638")
                  (language (validateLanguage None)))])
    /\ field (js "error") answer = None
    /\ field (js "table_name") answer = Some (JStr (ds_label sampleData))
    /\ field (js "variables") answer = Some (JArr entries)
    /\ length entries
       = size ({[ js "Tid" := yearDimension ]} : gmap jsstring Dimension)
    /\ (forall varCode varDef,
        ({[ js "Tid" := yearDimension ]} : gmap jsstring Dimension)
        !! varCode = Some varDef ->
        JObj [(js "code", JStr varCode);
              (js "label", JStr (dim_label varDef));
              (js "value_count",
               JNat (size (cat_index (category varDef))))] ∈ entries)
    /\ field (js "dataset_info") answer = Some datasetInfo
    /\ field (js "total_cells") datasetInfo
       = Some (JN (foldr N.mul 1 (ds_size sampleData))).
Proof.
  assert (Hpos : Forall (fun n => 0 < n) (ds_size sampleData))
    by (repeat constructor).
  assert (Hbound : foldr N.mul 1 (ds_size sampleData) < 2 ^ 53)
    by reflexivity.
  split; [exact Hpos|]. split; [exact Hbound|].
  exact (handleGetTableInfo_variables (fun _ => None) (js "TypeError")
           sampleClient (js "TAB638") None sampleData _ eq_refl eq_refl
           Hpos Hbound).
Defined.

Lemma metadata_failure_is_reported_sample :
  let call :=
    logged (getTableMetadata (js "TAB0") (language (validateLanguage None)))
  in
  exists infoAnswer variablesAnswer testAnswer e1 e2 e3,
    run failingClient
      (handleGetTableInfo (fun _ => None) (js "TypeError") (js "TAB0") None)
    = (infoAnswer, [call])
    /\ run failingClient (handleGetTableVariables (js "TAB0") None None)
       = (variablesAnswer, [call])
    /\ run failingClient (handleTestSelection (js "TAB0") None None)
       = (testAnswer, [call])
    /\ field (js "error") infoAnswer = Some e1
    /\ field (js "type") e1 = Some (JStr (js "table_info_failed"))
    /\ field (js "message") e1 = Some (JStr (js "503 Service Unavailable"))
    /\ field (js "error") variablesAnswer = Some e2
    /\ field (js "type") e2 = Some (JStr (js "table_variables_failed"))
    /\ field (js "message") e2 = Some (JStr (js "503 Service Unavailable"))
    /\ field (js "error") testAnswer = Some e3
    /\ field (js "type") e3 = Some (JStr (js "table_not_found"))
    /\ field (js "message") e3
       = Some (JStr (js "Could not validate table " ++ dq ++ js "TAB0" ++ dq
                     ++ js ": " ++ js "503 Service Unavailable"))
    /\ field (js "variables") infoAnswer = None
    /\ field (js "variables") variablesAnswer = None
    /\ field (js "is_valid") testAnswer = None.
Proof.
  exact (metadata_failure_is_reported (fun _ => None) (js "TypeError")
           failingClient (js "TAB0") None None
           (js "503 Service Unavailable") eq_refl eq_refl).
Defined.

Lemma metadata_without_dimension_sample :
  exists e1,
    field (js "error")
      (run noDimensionClient
         (handleGetTableInfo (fun _ => None) (js "TypeError") (js "TAB0")
            None)).1 = Some e1
    /\ field (js "type") e1 = Some (JStr (js "table_info_failed"))
    /\ field (js "message") e1 = Some (JStr (js "TypeError"))
    /\ field (js "error")
         (run noDimensionClient
            (handleGetTableVariables (js "TAB0") None None)).1
       = Some (JStr (js "No variable information available for this table"))
    /\ field (js "is_valid")
         (run noDimensionClient
            (handleTestSelection (js "TAB0") None None)).1
       = Some (JBool true)
    /\ field (js "available_variables")
         (run noDimensionClient
            (handleTestSelection (js "TAB0") None None)).1
       = Some (JArr []).
Proof.
  exact (metadata_without_dimension (fun _ => None) (js "TypeError")
           noDimensionClient (js "TAB0") None None
           (mkDataset (js "Bare") None []) eq_refl eq_refl eq_refl).
Defined.

(** ** Searching tables *)

Lemma sliceTo_is_take {A : Type} (l : list A) (n : Q) :
  exists k, sliceTo l n = take k l.
Proof. unfold sliceTo. destruct (_ <? 0)%Z; eauto. Qed.

Lemma filter_sublist {A : Type} (f : A -> bool) (l : list A) :
  List.filter f l `sublist_of` l.
Proof.
  induction l as [|x l IH]; simpl; [constructor|].
  destruct (f x); by constructor.
Qed.

Lemma cappedPageSize_nonneg (pageSize : option Q) :
  pageSize = None \/ (exists n, pageSize = Some n /\ (0 <= n)%Q) ->
  (0 <= cappedPageSize pageSize)%Q.
Proof.
  intros H. unfold cappedPageSize.
  assert (H0 : (0 <= match pageSize with
                     | Some n => if Qeq_bool n 0 then 20 else n
                     | None => 20
                     end)%Q).
  { destruct H as [-> | (n & -> & Hn)]; [done|].
    by destruct (Qeq_bool n 0). }
  by destruct (Qle_bool _ MAX_PAGE_SIZE).
Qed.

Lemma sliceTo_length {A : Type} (l : list A) (n : Q) :
  (0 <= n)%Q -> (n <= 100)%Q -> (length (sliceTo l n) <= 100)%nat.
Proof.
  destruct n as [a d]. unfold Qle, sliceTo. simpl. intros H0 H100.
  assert (Ha : (0 <= a)%Z) by lia.
  assert (Hk : (0 <= a ÷ Z.pos d <= 100)%Z).
  { rewrite Z.quot_div_nonneg by lia. split.
    - apply Z.div_pos; lia.
    - apply Z.div_le_upper_bound; lia. }
  destruct (Z.ltb_spec (a ÷ Z.pos d) 0); [lia|].
  rewrite length_take. lia.
Qed.

Lemma find_category (categoryLower : jsstring) :
  categoryLower ∈ validCategories ->
  exists keywords,
    List.find (fun e => jsEq (fst e) categoryLower) categoryKeywords
    = Some (categoryLower, keywords)
    /\ (categoryLower, keywords) ∈ categoryKeywords.
Proof.
  unfold validCategories. intros ([k kws] & -> & Hin)%list_elem_of_fmap.
  destruct (List.find _ categoryKeywords) as [[k' kws']|] eqn:E.
  - apply find_some in E as [Hin' Heq]. apply jsEq_true in Heq.
    simpl in Heq. subst k'. exists kws'. split; [done|].
    by apply list_elem_of_In.
  - apply list_elem_of_In in Hin.
    pose proof (find_none _ _ E _ Hin) as Hf. simpl in Hf.
    by rewrite (proj2 (jsEq_true k k)) in Hf.
Qed.

(** X29: a category that is not one of the seven known ones, compared in
    lower case, is refused with the error [invalid_category] that lists
    the seven; the refusal comes after the search request has been made,
    and shows no table. *)
Theorem handleSearchTables_invalid_category (client : Client)
    (args : SearchArgs) (result : SearchResult) (cat : jsstring) :
  arg_category args = Some cat ->
  cat <> [] ->
  (toLowerCase cat ∉ validCategories) ->
  client _ (searchTables
              (mkSearchParams args
                 (language (validateLanguage (arg_language args)))
                 (cappedPageSize (arg_pageSize args)))) = Returned result ->
  exists answer err details,
    run client (handleSearchTables args)
    = (Returned answer,
       [logged (searchTables
                  (mkSearchParams args
                     (language (validateLanguage (arg_language args)))
                     (cappedPageSize (arg_pageSize args))))])
    /\ field (js "error") answer = Some err
    /\ field (js "type") err = Some (JStr (js "invalid_category"))
    /\ field (js "details") err = Some details
    /\ field (js "valid_categories") details
       = Some (JArr (JStr <$> [js "population"; js "labour"; js "economy";
                               js "housing"; js "environment";
                               js "education"; js "health"]))
    /\ field (js "tables") answer = None.
Proof.
  intros Hc Hne Hnot Hr. unfold handleSearchTables. cbv zeta. cbn [run].
  rewrite Hr, Hc. destruct cat as [|c0 t0]; [done|].
  cbn [truthy default andb]. rewrite bool_decide_eq_false_2 by done.
  cbn [negb run]. eexists _, _, _. repeat split.
Qed.

(** X30: when the search succeeds and the category, if any, is a known
    one, the answer shows tables of the result in the result's order.
    With a category, every table shown holds one of that category's
    keywords in its lower-cased label, description or variable names;
    without one, the tables shown are a leading part of the result. When
    the page size is absent or not negative, at most 100 tables are
    shown. *)
Theorem handleSearchTables_shown_tables (client : Client)
    (args : SearchArgs) (result : SearchResult) :
  client _ (searchTables
              (mkSearchParams args
                 (language (validateLanguage (arg_language args)))
                 (cappedPageSize (arg_pageSize args)))) = Returned result ->
  truthy (arg_category args) = false
  \/ toLowerCase (default [] (arg_category args)) ∈ validCategories ->
  exists answer shown,
    (run client (handleSearchTables args)).1 = Returned answer
    /\ field (js "error") answer = None
    /\ field (js "tables") answer = Some (JArr (tableJson <$> shown))
    /\ shown `sublist_of` tables result
    /\ (truthy (arg_category args) = true ->
        forall table, table ∈ shown ->
        exists keywords keyword,
          (toLowerCase (default [] (arg_category args)), keywords)
          ∈ categoryKeywords
          /\ keyword ∈ keywords
          /\ includes (searchText table) keyword = true)
    /\ (truthy (arg_category args) = false ->
        exists k, shown = take k (tables result))
    /\ (arg_pageSize args = None
        \/ (exists n, arg_pageSize args = Some n /\ (0 <= n)%Q) ->
        (length shown <= 100)%nat).
Proof.
  intros Hr Hcat. unfold handleSearchTables. cbv zeta. cbn [run].
  rewrite Hr.
  set (categoryLower := toLowerCase (default [] (arg_category args))) in *.
  set (pageSize := cappedPageSize (arg_pageSize args)).
  assert (Hvalid : truthy (arg_category args)
                   && negb (bool_decide (categoryLower ∈ validCategories))
                   = false).
  { destruct Hcat as [-> | Hin]; [done|].
    rewrite bool_decide_eq_true_2 by done. apply andb_false_r. }
  rewrite Hvalid. cbn [run fst].
  match goal with |- context [sliceTo ?l pageSize] => set (filtered := l) end.
  assert (Hsub : filtered `sublist_of` tables result).
  { unfold filtered. destruct (truthy _); [apply filter_sublist | done]. }
  eexists _, (sliceTo filtered pageSize).
  split; [reflexivity|]. split; [reflexivity|]. split; [reflexivity|].
  split.
  { destruct (sliceTo_is_take filtered pageSize) as [k ->].
    etrans; [apply sublist_take | exact Hsub]. }
  split.
  { intros Ht table Hin. destruct Hcat as [Hf | Hin']; [congruence|].
    destruct (find_category _ Hin') as (kws & Hfind & Hmem).
    destruct (sliceTo_is_take filtered pageSize) as [k Hk].
    rewrite Hk in Hin. apply subseteq_take in Hin.
    unfold filtered in Hin. rewrite Ht, Hfind in Hin.
    apply list_elem_of_In, filter_In in Hin as [_ Hex].
    apply existsb_exists in Hex as (kw & Hkw & Hinc).
    exists kws, kw. split; [done|]. split; [by apply list_elem_of_In|done]. }
  split.
  { intros Hf. unfold filtered. rewrite Hf. apply sliceTo_is_take. }
  intros Hp. apply sliceTo_length.
  - by apply cappedPageSize_nonneg.
  - apply cappedPageSize_le.
Qed.

(** A client whose search finds three tables. *)
Definition populationTable : Table :=
  mkTable (js "TAB638") (js "Folkmangd efter region") None
    (Some [js "region"; js "tid"]).

Definition wagesTable : Table :=
  mkTable (js "TAB1") (js "Wage and salary structure") None None.

Definition searchResultOfThree : SearchResult :=
  mkSearchResult [populationTable; wagesTable; populationTable]
    (mkPage 1 20 1 3).

Definition searchClient : Client :=
  fun X c =>
    match c in ApiCall X return Result X with
    | searchTables _ => Returned searchResultOfThree
    | c' => failingClient _ c'
    end.

Definition labourSearch : SearchArgs :=
  mkSearchArgs (Some (js "lon")) (Some (js "Labour")) (Some 500%Q) None None.

Definition weatherSearch : SearchArgs :=
  mkSearchArgs None (Some (js "weather")) None None None.

Lemma handleSearchTables_invalid_category_sample :
  arg_category weatherSearch = Some (js "weather")
  /\ js "weather" <> []
  /\ (toLowerCase (js "weather") ∉ validCategories)
  /\ exists answer err details,
      run searchClient (handleSearchTables weatherSearch)
      = (Returned answer,
         [logged (searchTables
                    (mkSearchParams weatherSearch
                       (language
                          (validateLanguage (arg_language weatherSearch)))
                       (cappedPageSize (arg_pageSize weatherSearch))))])
      /\ field (js "error") answer = Some err
      /\ field (js "type") err = Some (JStr (js "invalid_category"))
      /\ field (js "details") err = Some details
      /\ field (js "valid_categories") details
         = Some (JArr (JStr <$> [js "population"; js "labour"; js "economy";
                                 js "housing"; js "environment";
                                 js "education"; js "health"]))
      /\ field (js "tables") answer = None.
Proof.
  assert (H : js "weather" <> []) by discriminate.
  assert (Hnot : toLowerCase (js "weather") ∉ validCategories).
  { unfold validCategories, categoryKeywords. simpl.
    rewrite !not_elem_of_cons. repeat split; try discriminate.
    apply not_elem_of_nil. }
  split; [reflexivity|]. split; [exact H|]. split; [exact Hnot|].
  exact (handleSearchTables_invalid_category searchClient weatherSearch
           searchResultOfThree (js "weather") eq_refl H Hnot eq_refl).
Defined.

Lemma handleSearchTables_shown_tables_sample :
  (truthy (arg_category labourSearch) = false
   \/ toLowerCase (default [] (arg_category labourSearch)) ∈ validCategories)
  /\ exists answer shown,
      (run searchClient (handleSearchTables labourSearch)).1
      = Returned answer
      /\ field (js "error") answer = None
      /\ field (js "tables") answer = Some (JArr (tableJson <$> shown))
      /\ shown `sublist_of` tables searchResultOfThree
      /\ (truthy (arg_category labourSearch) = true ->
          forall table, table ∈ shown ->
          exists keywords keyword,
            (toLowerCase (default [] (arg_category labourSearch)), keywords)
            ∈ categoryKeywords
            /\ keyword ∈ keywords
            /\ includes (searchText table) keyword = true)
      /\ (truthy (arg_category labourSearch) = false ->
          exists k, shown = take k (tables searchResultOfThree))
      /\ (arg_pageSize labourSearch = None
          \/ (exists n, arg_pageSize labourSearch = Some n /\ (0 <= n)%Q) ->
          (length shown <= 100)%nat).
Proof.
  assert (H : truthy (arg_category labourSearch) = false
              \/ toLowerCase (default [] (arg_category labourSearch))
                 ∈ validCategories).
  { right. unfold validCategories, categoryKeywords. simpl.
    rewrite !elem_of_cons. right. left. reflexivity. }
  split; [exact H|].
  exact (handleSearchTables_shown_tables searchClient labourSearch
           searchResultOfThree eq_refl H).
Defined.

(** The labour search of the example shows the wage table only. *)
Example handleSearchTables_labour_shows_wages :
  field (js "tables")
    match (run searchClient (handleSearchTables labourSearch)).1 with
    | Returned answer => answer
    | Thrown _ => JNull
    end
  = Some (JArr [tableJson wagesTable]).
Proof. vm_compute. reflexivity. Qed.
